(** * cloud-fetch: a shallow embedding of [fetch.py]

    The script downloads the devices of a group and the messages of every
    device from a paginated REST API, turns every message into a measurement
    (battery voltages, temperatures, derived load resistance) and hands one
    sheet per device to the spreadsheet writer of pandas.

    Python objects decoded by [json.loads] are modelled by [value]; Python
    exceptions by [result]; the network, the terminal and the use made of the
    spreadsheet writer by an explicit [world] threaded through the effectful
    code.  The libraries [pendulum] and [pandas] are parameters of the
    development: what they return, accept or refuse is theirs to decide. *)

From Stdlib Require Import ZArith List String Ascii Bool Lia.
From Stdlib Require Import Floats.SpecFloat.
Import ListNotations.

Local Open Scope string_scope.
Local Open Scope list_scope.
Local Open Scope Z_scope.

(** ** Python objects *)

#[local] Set Warnings "-register-all".

(** What [json.loads] produces: [None], [bool], [int] (unbounded), [float]
    (IEEE-754 binary64), [str] (one [ascii] per character), [list] and
    [dict].  A [dict] keeps its keys in insertion order, hence the
    association list. *)
Inductive value : Type :=
| PyNone
| PyBool (b : bool)
| PyInt (z : Z)
| PyFloat (f : spec_float)
| PyStr (s : string)
| PyList (xs : list value)
| PyDict (items : list (string * value)).

(** The exceptions the script can meet. *)
Inductive exn : Type :=
| KeyError
| TypeError
| AttributeError
| ValueError
| OverflowError
| ZeroDivisionError
| ParserError
| IndexError
| FetchException
| KeyboardInterrupt.

(** Outcome of evaluating Python code without effects. *)
Inductive result (A : Type) : Type :=
| Returns (a : A)
| Raises (e : exn).
Arguments Returns {A} a.
Arguments Raises {A} e.

Definition rbind {A B} (r : result A) (k : A -> result B) : result B :=
  match r with
  | Returns a => k a
  | Raises e => Raises e
  end.

Declare Scope py_scope.
Delimit Scope py_scope with py.
Notation "x <- r ;; k" := (rbind r (fun x => k))
  (at level 61, r at next level, right associativity) : py_scope.

(** ** Dictionaries, subscription, membership, truth *)

Fixpoint dict_find (k : string) (items : list (string * value)) : option value :=
  match items with
  | [] => None
  | (k', v) :: rest => if String.eqb k k' then Some v else dict_find k rest
  end.

(** [obj[key]] for a string key. *)
Definition getitem (obj : value) (key : string) : result value :=
  match obj with
  | PyDict items =>
      match dict_find key items with
      | Some v => Returns v
      | None => Raises KeyError
      end
  | _ => Raises TypeError
  end.

(** [obj.get(key, default)]; only a [dict] has the method. *)
Definition get (obj : value) (key : string) (default : value) : result value :=
  match obj with
  | PyDict items =>
      match dict_find key items with
      | Some v => Returns v
      | None => Returns default
      end
  | _ => Raises AttributeError
  end.

Definition is_substring (needle hay : string) : bool :=
  match String.index 0 needle hay with
  | Some _ => true
  | None => false
  end.

(** [key in obj] for a string key: key of a dict, element of a list,
    substring of a string. *)
Definition contains (obj : value) (key : string) : result bool :=
  match obj with
  | PyDict items =>
      Returns (match dict_find key items with Some _ => true | None => false end)
  | PyList xs =>
      Returns (existsb (fun x => match x with
                                 | PyStr s => String.eqb key s
                                 | _ => false
                                 end) xs)
  | PyStr s => Returns (is_substring key s)
  | _ => Raises TypeError
  end.

Definition float_is_zero (f : spec_float) : bool :=
  match f with
  | S754_zero _ => true
  | _ => false
  end.

(** Truth value of an object, as tested by [if] and [and]. *)
Definition truthy (v : value) : bool :=
  match v with
  | PyNone => false
  | PyBool b => b
  | PyInt z => negb (z =? 0)
  | PyFloat f => negb (float_is_zero f)
  | PyStr s => negb (String.eqb s EmptyString)
  | PyList xs => match xs with [] => false | _ => true end
  | PyDict items => match items with [] => false | _ => true end
  end.

(** ** Numbers *)

Definition prec : Z := 53.
Definition emax : Z := 1024.

Definition float_is_inf (f : spec_float) : bool :=
  match f with
  | S754_infinity _ => true
  | _ => false
  end.

(** A result that left the range of a double is an [OverflowError] wherever
    CPython checks for it. *)
Definition checked (f : spec_float) : result spec_float :=
  if float_is_inf f then Raises OverflowError else Returns f.

(** [float(z)]: the nearest double, ties to even. *)
Definition float_of_int (z : Z) : result spec_float :=
  checked (binary_normalize prec emax z 0 false).

(** The double nearest to [a / b] for positive integers [a] and [b]. *)
Definition nearest_quotient (neg : bool) (a b : Z) : spec_float :=
  let '(q, e, l) := SFdiv_core_binary prec emax a 0 b 0 in
  binary_round_aux prec emax neg q e l.

(** [a / b] on two [int]s: correctly rounded true division. *)
Definition int_truediv (a b : Z) : result spec_float :=
  if b =? 0 then Raises ZeroDivisionError
  else
    let neg := xorb (a <? 0) (b <? 0) in
    if a =? 0 then Returns (S754_zero neg)
    else checked (nearest_quotient neg (Z.abs a) (Z.abs b)).

(** Operands of arithmetic: [bool] counts as [int]. *)
Inductive number : Type :=
| NInt (z : Z)
| NFloat (f : spec_float).

Definition as_number (v : value) : result number :=
  match v with
  | PyBool b => Returns (NInt (if b then 1 else 0))
  | PyInt z => Returns (NInt z)
  | PyFloat f => Returns (NFloat f)
  | _ => Raises TypeError
  end.

Definition to_float (n : number) : result spec_float :=
  match n with
  | NInt z => float_of_int z
  | NFloat f => Returns f
  end.

Section Arithmetic.
Local Open Scope py_scope.

(** [a - b] *)
Definition sub (a b : value) : result value :=
  x <- as_number a ;;
  y <- as_number b ;;
  match x, y with
  | NInt m, NInt n => Returns (PyInt (m - n))
  | _, _ =>
      fx <- to_float x ;;
      fy <- to_float y ;;
      Returns (PyFloat (SFsub prec emax fx fy))
  end.

(** [a * b] on numbers *)
Definition mul (a b : value) : result value :=
  x <- as_number a ;;
  y <- as_number b ;;
  match x, y with
  | NInt m, NInt n => Returns (PyInt (m * n))
  | _, _ =>
      fx <- to_float x ;;
      fy <- to_float y ;;
      Returns (PyFloat (SFmul prec emax fx fy))
  end.

(** [a / b] *)
Definition truediv (a b : value) : result value :=
  x <- as_number a ;;
  y <- as_number b ;;
  match x, y with
  | NInt m, NInt n =>
      q <- int_truediv m n ;;
      Returns (PyFloat q)
  | _, _ =>
      fx <- to_float x ;;
      fy <- to_float y ;;
      if float_is_zero fy then Raises ZeroDivisionError
      else Returns (PyFloat (SFdiv prec emax fx fy))
  end.

(** Nearest integer to [num / den] for [0 <= num] and [0 < den], ties to
    the even neighbour. *)
Definition round_half_even (num den : Z) : Z :=
  let q := num / den in
  let r := num mod den in
  match 2 * r ?= den with
  | Lt => q
  | Gt => q + 1
  | Eq => if Z.even q then q else q + 1
  end.

(** [round(x, ndigits)] on a [float], for [0 <= ndigits]: the exact value
    of [x] is rounded to [ndigits] decimals, ties to even, and the decimal
    obtained is converted back to the nearest double; the sign of [x] is
    kept, infinities and NaN round to themselves. *)
Definition float_round (x : spec_float) (ndigits : Z) : result spec_float :=
  match x with
  | S754_finite s m e =>
      let p := 10 ^ ndigits in
      let k := if 0 <=? e then Zpos m * 2 ^ e * p
               else round_half_even (Zpos m * p) (2 ^ (- e)) in
      if k =? 0 then Returns (S754_zero s)
      else checked (nearest_quotient s k p)
  | _ => Returns x
  end.

(** [round(v, ndigits)] for [0 <= ndigits]: an [int] (or [bool]) comes
    back as the same [int], a [float] is rounded, anything else has no
    [__round__]. *)
Definition round (v : value) (ndigits : Z) : result value :=
  x <- as_number v ;;
  match x with
  | NInt z => Returns (PyInt z)
  | NFloat f =>
      y <- float_round f ndigits ;;
      Returns (PyFloat y)
  end.
End Arithmetic.

(** ** The measurement extractor *)

(** Ohmic value of the load resistor *)
Definition LOAD_RESISTOR : Z := 39.

(** What the script needs from the [pendulum] library: [local_datetime s]
    stands for
    [pendulum.parse(s).in_timezone('Europe/Prague').to_datetime_string()],
    with the exception it raises when the text is not a timestamp. *)
Class Pendulum : Type := { local_datetime : string -> result string }.

(** [pendulum.parse] applied to an object of the message. *)
Definition parse_date `{Pendulum} (created_at : value) : result string :=
  match created_at with
  | PyStr s => local_datetime s
  | _ => Raises TypeError
  end.

(** The dictionary built by [extract_measurement]. *)
Record measurement : Type := Measurement {
  label : value;
  date : string;
  t1 : value;
  t2 : value;
  v1 : value;
  v2 : value;
  r : value
}.

(** [round(t, 1) if t is not None else None] *)
Definition round_opt (t : value) (ndigits : Z) : result value :=
  match t with
  | PyNone => Returns PyNone
  | _ => round t ndigits
  end.

(** [LOAD_RESISTOR * (v1 - v2) / v2] *)
Definition load_resistance (v1 v2 : value) : result value :=
  (d <- sub v1 v2 ;;
   p <- mul (PyInt LOAD_RESISTOR) d ;;
   truediv p v2)%py.

Definition extract_measurement `{Pendulum} (message : value)
  : result (option measurement) :=
  (data <- getitem message "data" ;;
   has_battery <- contains data "battery" ;;
   if negb has_battery then Returns None
   else
     (* Fetch message date *)
     created_at <- getitem message "created_at" ;;
     date <- parse_date created_at ;;
     (* Fetch voltages *)
     data <- getitem message "data" ;;
     battery <- getitem data "battery" ;;
     v1 <- get battery "voltage1" PyNone ;;
     data <- getitem message "data" ;;
     battery <- getitem data "battery" ;;
     v2 <- get battery "voltage2" PyNone ;;
     (* Fetch temperatures *)
     data <- getitem message "data" ;;
     sensor <- get data "sensor" (PyDict []) ;;
     thermometer <- get sensor "thermometer" (PyDict []) ;;
     t1 <- get thermometer "temperature" PyNone ;;
     data <- getitem message "data" ;;
     sensor <- get data "sensor" (PyDict []) ;;
     hygrometer <- get sensor "hygrometer" (PyDict []) ;;
     t2 <- get hygrometer "temperature" PyNone ;;
     (* If both voltages exist, create a measurement record *)
     if truthy v1 && truthy v2 then
       label <- getitem message "label" ;;
       t1' <- round_opt t1 1 ;;
       t2' <- round_opt t2 1 ;;
       v1' <- round v1 2 ;;
       v2' <- round v2 2 ;;
       q <- load_resistance v1 v2 ;;
       r <- round q 2 ;;
       Returns (Some (Measurement label date t1' t2' v1' v2' r))
     else Returns None)%py.

(** Walk through messages: the inner loop of [main]. *)
Fixpoint extract_all `{Pendulum} (messages : list value)
    (measurements : list measurement) : result (list measurement) :=
  match messages with
  | [] => Returns measurements
  | m :: rest =>
      (* Extract desired measurement out of the message *)
      (measurement <- extract_measurement m ;;
       (* Append the measurement if it was extracted *)
       match measurement with
       | Some x => extract_all rest (measurements ++ [x])
       | None => extract_all rest measurements
       end)%py
  end.

(** ** The world around the script *)

(** Text handed to [click.echo] or sent as a header: a literal, a
    [template.format(args)] kept unevaluated, or the traceback of an
    exception nobody caught. *)
Inductive text : Type :=
| Lit (s : string)
| Format (template : string) (args : list value)
| Traceback (e : exn).

Record request : Type := Request {
  url : string;
  params : list (string * value);
  headers : list (string * text)
}.

(** An HTTP answer: the status and what [json.loads] makes of the body. *)
Record response : Type := Response {
  status_code : Z;
  loads_text : result value
}.

Record sheet : Type := Sheet {
  name : value;
  data : list measurement
}.

(** A [pandas.ExcelWriter] as far as the script has to do with it: the
    path it was opened on and the sheets handed to it through [to_excel], in
    the order of the calls.  Which worksheets pandas makes of them is not
    said here. *)
Record excel_writer : Type := Writer {
  path : string;
  handed : list sheet
}.

(** [pending]: the answers the API is going to give, in order; a request
    sent when none is left never returns.  [http]: every request sent so far
    with the answer it got.  [stdout], [stderr]: what was echoed, with the
    [nl] flag.  [files]: the spreadsheet writers opened so far, each with the
    sheets it was handed; what pandas leaves in the file is outside the
    model. *)
Record world : Type := World {
  pending : list response;
  http : list (request * option response);
  stdout : list (text * bool);
  stderr : list (text * bool);
  files : list excel_writer
}.

(** Effectful code: [None] when the call never returns. *)
Definition M (A : Type) : Type := world -> option (result A) * world.

Definition ret {A} (a : A) : M A := fun w => (Some (Returns a), w).
Definition raise {A} (e : exn) : M A := fun w => (Some (Raises e), w).
Definition lift {A} (r : result A) : M A := fun w => (Some r, w).
Definition hang {A} : M A := fun w => (None, w).

Definition bind {A B} (m : M A) (k : A -> M B) : M B :=
  fun w =>
    match m w with
    | (Some (Returns a), w') => k a w'
    | (Some (Raises e), w') => (Some (Raises e), w')
    | (None, w') => (None, w')
    end.

Declare Scope io_scope.
Delimit Scope io_scope with io.
Notation "x <- m ;; k" := (bind m (fun x => k))
  (at level 61, m at next level, right associativity) : io_scope.
Notation "m ;; k" := (bind m (fun _ => k))
  (at level 61, right associativity) : io_scope.

(** [requests.get(url, params=params, headers=headers)] *)
Definition requests_get (url : string) (params : list (string * value))
    (headers : list (string * text)) : M response :=
  fun w =>
    let rq := Request url params headers in
    match pending w with
    | [] =>
        (None, World [] (http w ++ [(rq, None)]) (stdout w) (stderr w) (files w))
    | r :: rest =>
        (Some (Returns r),
         World rest (http w ++ [(rq, Some r)]) (stdout w) (stderr w) (files w))
    end.

(** [click.echo(message, nl=nl, err=err)] *)
Definition click_echo (message : text) (nl err : bool) : M unit :=
  fun w =>
    (Some (Returns tt),
     if err
     then World (pending w) (http w) (stdout w) (stderr w ++ [(message, nl)]) (files w)
     else World (pending w) (http w) (stdout w ++ [(message, nl)]) (stderr w) (files w)).

(** [len(obj)] *)
Definition len (obj : value) : result Z :=
  match obj with
  | PyList xs => Returns (Z.of_nat (List.length xs))
  | PyDict items => Returns (Z.of_nat (List.length items))
  | PyStr s => Returns (Z.of_nat (String.length s))
  | _ => Raises TypeError
  end.

(** The elements [records += obj] appends: those of a list, the keys of a
    dict, the characters of a string. *)
Definition elements (obj : value) : result (list value) :=
  match obj with
  | PyList xs => Returns xs
  | PyDict items => Returns (map (fun kv => PyStr (fst kv)) items)
  | PyStr s =>
      Returns (map (fun c => PyStr (String c EmptyString)) (list_ascii_of_string s))
  | _ => Raises TypeError
  end.

(** [obj[:n]] *)
Definition slice_to (obj : value) (n : nat) : result value :=
  match obj with
  | PyStr s => Returns (PyStr (substring 0 n s))
  | PyList xs => Returns (PyList (firstn n xs))
  | _ => Raises TypeError
  end.

(** ** The two fetchers *)

(** This class handles fetching of device list from the provided group *)
Module DeviceFetcher.
Local Open Scope io_scope.

Record t : Type := __init__ { _group_id : value; _api_token : value }.

Definition _get (self : t) (limit offset : Z) : M value :=
  let params := [("group_id", _group_id self);
                 ("limit", PyInt limit);
                 ("offset", PyInt offset)] in
  let headers := [("Authorization", Format "Bearer {}" [_api_token self])] in
  r <- requests_get "https://api.hardwario.cloud/v1/devices" params headers ;;
  if negb (status_code r =? 200) then raise FetchException
  else lift (loads_text r).

(** The [while True] loop; [fuel] bounds the number of iterations.  One
    iteration uses up one pending answer, so [fetch] starts the loop with
    one more than there are. *)
Fixpoint fetch_loop (fuel : nat) (self : t) (found : bool)
    (records : list value) (offset limit : Z) : M (bool * list value) :=
  match fuel with
  | O => hang
  | S fuel' =>
      let found := true in
      click_echo (Lit ".") false false ;;
      data <- _get self limit offset ;;
      count <- lift (len data) ;;
      more <- lift (elements data) ;;
      let records := records ++ more in
      let offset := offset + count in
      if (count =? 0) || (count <? limit) then ret (found, records)
      else fetch_loop fuel' self found records offset limit
  end.

Definition fetch (self : t) : M (list value) :=
  fun w =>
    (out <- fetch_loop (S (List.length (pending w))) self false [] 0 100 ;;
     let '(found, records) := out in
     (if found then click_echo (Lit "") true false else ret tt) ;;
     ret records) w.
End DeviceFetcher.

(** This class handles fetching of message list from the provided device *)
Module MessageFetcher.
Local Open Scope io_scope.

Record t : Type := __init__ {
  _group_id : value;
  _device_id : value;
  _api_token : value
}.

Definition _get (self : t) (limit offset : Z) : M value :=
  let params := [("group_id", _group_id self);
                 ("device_id", _device_id self);
                 ("limit", PyInt limit);
                 ("offset", PyInt offset)] in
  let headers := [("Authorization", Format "Bearer {}" [_api_token self])] in
  r <- requests_get "https://api.hardwario.cloud/v1/messages" params headers ;;
  if negb (status_code r =? 200) then raise FetchException
  else lift (loads_text r).

Fixpoint fetch_loop (fuel : nat) (self : t) (found : bool)
    (records : list value) (offset limit : Z) : M (bool * list value) :=
  match fuel with
  | O => hang
  | S fuel' =>
      let found := true in
      click_echo (Lit ".") false false ;;
      data <- _get self limit offset ;;
      count <- lift (len data) ;;
      more <- lift (elements data) ;;
      let records := records ++ more in
      let offset := offset + count in
      if (count =? 0) || (count <? limit) then ret (found, records)
      else fetch_loop fuel' self found records offset limit
  end.

Definition fetch (self : t) : M (list value) :=
  fun w =>
    (out <- fetch_loop (S (List.length (pending w))) self false [] 0 100 ;;
     let '(found, records) := out in
     (if found then click_echo (Lit "") true false else ret tt) ;;
     ret records) w.
End MessageFetcher.

(** ** The spreadsheet writer *)

(** What the script asks of [pandas], with the exceptions pandas answers
    with.  [ExcelWriter path] is the constructor [pandas.ExcelWriter(path)];
    [to_excel writer sheet] is
    [sheet['data'].to_excel(writer, sheet_name=sheet['name'])] on a writer
    that was handed [handed writer] before; [__exit__ writer] is the closing
    of the writer when the [with] block is left, which saves the file.
    Whether a name is acceptable, what happens to a name used twice and
    whether a workbook without sheets can be saved depend on pandas and on
    the engine it writes with. *)
Class Pandas : Type := {
  ExcelWriter : string -> result unit;
  to_excel : excel_writer -> sheet -> result unit;
  __exit__ : excel_writer -> result unit
}.

(** ** The orchestrator *)

Section Orchestrator.
Context `{Pendulum} `{Pandas}.
Local Open Scope io_scope.

(** The loop [for sheet in sheets] inside the [with] block: every sheet is
    handed to the writer in turn; the loop ends at the first call that
    raises. *)
Fixpoint to_excel_each (writer : excel_writer) (sheets : list sheet)
  : result unit * excel_writer :=
  match sheets with
  | [] => (Returns tt, writer)
  | sheet :: rest =>
      let writer' := Writer (path writer) (handed writer ++ [sheet]) in
      match to_excel writer sheet with
      | Returns _ => to_excel_each writer' rest
      | Raises e => (Raises e, writer')
      end
  end.

(** The [with pandas.ExcelWriter(xlsx_file) as writer] block.  When the
    constructor raises there is no writer.  Otherwise the writer is closed
    when the block is left, also when the loop raised; an exception of the
    closing is the one that goes on, else that of the loop. *)
Definition write_xlsx (xlsx_file : string) (sheets : list sheet) : M unit :=
  fun w =>
    match ExcelWriter xlsx_file with
    | Raises e => (Some (Raises e), w)
    | Returns _ =>
        let body := to_excel_each (Writer xlsx_file []) sheets in
        let writer := snd body in
        (Some match __exit__ writer with
              | Returns _ => fst body
              | Raises e => Raises e
              end,
         World (pending w) (http w) (stdout w) (stderr w) (files w ++ [writer]))
    end.

(** The loop [for device in devices] of [main]. *)
Fixpoint main_devices (devices : list value) (sheets : list sheet)
  : M (list sheet) :=
  match devices with
  | [] => ret sheets
  | device :: rest =>
      (* Fetch all messages for device *)
      id <- lift (getitem device "id") ;;
      nm <- lift (getitem device "name") ;;
      click_echo (Format "Fetching messages for device: {} ({})..." [id; nm])
        true false ;;
      group_id <- lift (getitem device "group_id") ;;
      device_id <- lift (getitem device "id") ;;
      api_token <- lift (getitem device "api_token") ;;
      messages <-
        MessageFetcher.fetch (MessageFetcher.__init__ group_id device_id api_token) ;;
      (* Walk through messages *)
      measurements <- lift (extract_all messages []) ;;
      (* Append sheet as Pandas data frame *)
      id <- lift (getitem device "id") ;;
      sheet_name <- lift (slice_to id 30) ;;
      main_devices rest (sheets ++ [Sheet sheet_name measurements])
  end.

Definition main (xlsx_file group_id api_token : string) : M unit :=
  (* Fetch all devices in group *)
  click_echo (Format "Fetching data for group: {}..." [PyStr group_id])
    true false ;;
  devices <-
    DeviceFetcher.fetch (DeviceFetcher.__init__ (PyStr group_id) (PyStr api_token)) ;;
  sheets <- main_devices devices [] ;;
  (* Write measurements to XLSX *)
  click_echo (Lit "Generating XLSX file...") true false ;;
  write_xlsx xlsx_file sheets.

(** How the call [main()] ends.  [main] is a [click.command], and called
    like this it runs in click's standalone mode: when the function returns,
    click leaves through [sys.exit(0)]; a [KeyboardInterrupt] out of the
    function is answered with an empty line and [Aborted!] on standard error
    and [sys.exit(1)]; every other exception of the script passes through
    click untouched. *)
Inductive ending : Type :=
| SystemExit (code : Z)
| Propagates (e : exn).

Definition click_main (xlsx_file group_id api_token : string)
  : world -> option ending * world :=
  fun w =>
    match main xlsx_file group_id api_token w with
    | (Some (Returns tt), w') => (Some (SystemExit 0), w')
    | (Some (Raises KeyboardInterrupt), w') =>
        (Some (SystemExit 1),
         snd ((click_echo (Lit "") true true ;;
               click_echo (Lit "Aborted!") true true) w'))
    | (Some (Raises e), w') => (Some (Propagates e), w')
    | (None, w') => (None, w')
    end.

(** The [if __name__ == '__main__'] block, as a process: the exit status
    and the final world.  [SystemExit] passes both handlers and sets the
    status; an exception that ends in one of the two handlers leaves status
    0; an exception nobody catches prints its traceback and leaves status
    1. *)
Definition script (xlsx_file group_id api_token : string)
  : world -> option Z * world :=
  fun w =>
    match click_main xlsx_file group_id api_token w with
    | (Some (SystemExit code), w') => (Some code, w')
    | (Some (Propagates FetchException), w') =>
        (Some 0,
         snd (click_echo
                (Lit "Request to REST API failed. Please, check your parameters!")
                true true w'))
    | (Some (Propagates KeyboardInterrupt), w') => (Some 0, w')
    | (Some (Propagates e), w') =>
        (Some 1, snd (click_echo (Traceback e) true true w'))
    | (None, w') => (None, w')
    end.
End Orchestrator.

(** * Properties *)

(** ** Vocabulary of the statements *)

(** What [obj.get(key)] gives on a dict with these items. *)
Definition get_or_none (items : list (string * value)) (key : string) : value :=
  match dict_find key items with
  | Some v => v
  | None => PyNone
  end.

(** An entry that, when present, is a dict. *)
Definition dict_if_present (items : list (string * value)) (key : string) : Prop :=
  match dict_find key items with
  | None | Some (PyDict _) => True
  | Some _ => False
  end.

(** The [sensor] entry of [data] and, inside it, the entry of [device] are
    dicts when they are there at all. *)
Definition sensor_path_ok (data : list (string * value)) (device : string) : Prop :=
  match dict_find "sensor" data with
  | None => True
  | Some (PyDict sensor) => dict_if_present sensor device
  | Some _ => False
  end.

(** [data.sensor.<device>.temperature], [None] when a level is absent. *)
Definition nested_temperature (data : list (string * value)) (device : string)
  : option value :=
  match dict_find "sensor" data with
  | Some (PyDict sensor) =>
      match dict_find device sensor with
      | Some (PyDict entry) => dict_find "temperature" entry
      | _ => None
      end
  | _ => None
  end.

(** The temperature field of the record: [None] when the reading is absent
    at any level or null, its rounding to one decimal otherwise. *)
Definition rounded_temperature (reading : option value) (field : value) : Prop :=
  match reading with
  | None | Some PyNone => field = PyNone
  | Some t => round t 1 = Returns field
  end.

(** A voltage entry that is missing, zero or null. *)
Definition missing_zero_or_null (entry : option value) : Prop :=
  entry = None \/ entry = Some PyNone \/ entry = Some (PyInt 0) \/
  exists s, entry = Some (PyFloat (S754_zero s)).

(** A stand-in for [pendulum] that knows one timestamp and rejects any
    other text; used to run the model on concrete messages. *)
Definition stub_pendulum : Pendulum :=
  {| local_datetime s :=
       if String.eqb s "2019-06-21T10:00:00+00:00"
       then Returns "2019-06-21 12:00:00"
       else Raises ParserError |}.

(** The double nearest to the decimal [n / d]. *)
Definition decimal (n d : Z) : spec_float := nearest_quotient false n d.

Definition sample_message (battery : list (string * value)) : value :=
  PyDict [("label", PyStr "bat-1");
          ("created_at", PyStr "2019-06-21T10:00:00+00:00");
          ("data", PyDict [("battery", PyDict battery);
                           ("sensor", PyDict [("thermometer",
                              PyDict [("temperature", PyFloat (decimal 2345 100))])])])].

(** *** Pagination *)

(** A successful answer carrying one page. *)
Definition ok_page (page : list value) : response :=
  Response 200 (Returns (PyList page)).

(** A listing served in pages: every page but the last holds at least 100
    items (the limit asked for), the last one fewer, possibly none. *)
Inductive paging : list (list value) -> Prop :=
| paging_last page :
    (List.length page < 100)%nat -> paging [page]
| paging_more page pages :
    (100 <= List.length page)%nat -> paging pages -> paging (page :: pages).

(** The paginated list fetcher as the specification words it: one
    component, parameterized by the endpoint and the fixed query
    parameters, that asks for pages of [limit] items at increasing offsets
    and stops at the first page that is empty or short. *)
Definition get_page (endpoint : string) (fixed : list (string * value))
    (token : value) (limit offset : Z) : M value :=
  (r <- requests_get endpoint
         (fixed ++ [("limit", PyInt limit); ("offset", PyInt offset)])
         [("Authorization", Format "Bearer {}" [token])] ;;
   if negb (status_code r =? 200) then raise FetchException
   else lift (loads_text r))%io.

Fixpoint fetchAll_loop (fuel : nat) (endpoint : string)
    (fixed : list (string * value)) (token : value) (found : bool)
    (records : list value) (offset limit : Z) : M (bool * list value) :=
  match fuel with
  | O => hang
  | S fuel' =>
      (click_echo (Lit ".") false false ;;
       page <- get_page endpoint fixed token limit offset ;;
       count <- lift (len page) ;;
       more <- lift (elements page) ;;
       if (count =? 0) || (count <? limit)
       then ret (true, records ++ more)
       else fetchAll_loop fuel' endpoint fixed token true (records ++ more)
              (offset + count) limit)%io
  end.

Definition fetchAll (endpoint : string) (fixed : list (string * value))
    (token : value) : M (list value) :=
  fun w =>
    (out <- fetchAll_loop (S (List.length (pending w))) endpoint fixed token
              false [] 0 100 ;;
     let '(found, records) := out in
     (if found then click_echo (Lit "") true false else ret tt) ;;
     ret records)%io w.

Definition devices_url : string := "https://api.hardwario.cloud/v1/devices".
Definition messages_url : string := "https://api.hardwario.cloud/v1/messages".

(** The request for the page at [offset] and the answer [page] it gets. *)
Definition exchange (endpoint : string) (fixed : list (string * value))
    (token : value) (offset : Z) (page : list value)
  : request * option response :=
  (Request endpoint (fixed ++ [("limit", PyInt 100); ("offset", PyInt offset)])
     [("Authorization", Format "Bearer {}" [token])],
   Some (ok_page page)).

(** The exchanges of a whole listing: each offset is the number of items
    received so far. *)
Fixpoint exchanges (endpoint : string) (fixed : list (string * value))
    (token : value) (offset : Z) (pages : list (list value))
  : list (request * option response) :=
  match pages with
  | [] => []
  | page :: rest =>
      exchange endpoint fixed token offset page
      :: exchanges endpoint fixed token
           (offset + Z.of_nat (List.length page)) rest
  end.

(** A request answered with a status other than 200. *)
Definition failed (x : request * option response) : Prop :=
  match snd x with
  | Some r => status_code r <> 200
  | None => False
  end.

(** The [limit] and [offset] a request carries, next to its answer. *)
Definition progression (x : request * option response)
  : option value * option value * option response :=
  (dict_find "limit" (params (fst x)), dict_find "offset" (params (fst x)), snd x).

(** The offsets sent in a log of exchanges. *)
Definition offsets (log : list (request * option response)) : list (option value) :=
  map (fun x => dict_find "offset" (params (fst x))) log.

(** *** Runs of the orchestrator *)

(** One device of a run: its record as the API lists it, the fields [main]
    reads, the pages its messages are served in, and what the extractor
    makes of each message. *)
Record device_run : Type := DeviceRun {
  dev_items : list (string * value);
  dev_id : string;
  dev_name : value;
  dev_group : value;
  dev_token : value;
  msg_pages : list (list value);
  extracted : list (option measurement)
}.

Definition device_run_ok `{Pendulum} (x : device_run) : Prop :=
  dict_find "id" (dev_items x) = Some (PyStr (dev_id x)) /\
  dict_find "name" (dev_items x) = Some (dev_name x) /\
  dict_find "group_id" (dev_items x) = Some (dev_group x) /\
  dict_find "api_token" (dev_items x) = Some (dev_token x) /\
  paging (msg_pages x) /\
  Forall2 (fun m o => extract_measurement m = Returns o)
    (List.concat (msg_pages x)) (extracted x).

(** The measurements among the extraction results, in order. *)
Fixpoint present (outs : list (option measurement)) : list measurement :=
  match outs with
  | [] => []
  | Some x :: rest => x :: present rest
  | None :: rest => present rest
  end.

Definition sheet_of (x : device_run) : sheet :=
  Sheet (PyStr (substring 0 30 (dev_id x))) (present (extracted x)).

(** The answers a run needs: the pages of the device list, then for every
    device in turn the pages of its messages; [rest] is never asked for. *)
Definition served `{Pendulum} (device_pages : list (list value))
    (runs : list device_run) (rest : list response) (w : world) : Prop :=
  paging device_pages /\
  List.concat device_pages = map (fun x => PyDict (dev_items x)) runs /\
  Forall device_run_ok runs /\
  pending w = map ok_page device_pages
              ++ flat_map (fun x => map ok_page (msg_pages x)) runs
              ++ rest.

Definition message_exchanges (x : device_run) : list (request * option response) :=
  exchanges messages_url
    [("group_id", dev_group x); ("device_id", PyStr (dev_id x))]
    (dev_token x) 0 (msg_pages x).

(** *** Invariants of the effectful code *)

(** [quiet m]: [m] opens no writer and echoes nothing to standard error,
    only adds to the log of exchanges, and a request answered with a status
    other than 200 is the last thing it does: nothing is sent after it and
    the outcome is [FetchException]. *)
Definition quiet {A} (m : M A) : Prop :=
  forall w, exists new,
    http (snd (m w)) = http w ++ new /\
    stderr (snd (m w)) = stderr w /\
    files (snd (m w)) = files w /\
    (forall before x after,
        new = before ++ x :: after -> failed x ->
        after = [] /\ fst (m w) = Some (Raises FetchException)).

(** Two worlds in which the same answers are pending and the exchanges so
    far carried the same limits, offsets and answers. *)
Definition same_course (w1 w2 : world) : Prop :=
  pending w1 = pending w2 /\
  map progression (http w1) = map progression (http w2) /\
  stdout w1 = stdout w2 /\ stderr w1 = stderr w2 /\ files w1 = files w2.

(** Fixed parameters that do not hide [limit] and [offset]. *)
Definition plain (fixed : list (string * value)) : Prop :=
  dict_find "limit" fixed = None /\ dict_find "offset" fixed = None.

(** *** Sample data *)

(** [count] distinct records, numbered from [from]. *)
Definition numbered (from count : nat) : list value :=
  map (fun n => PyInt (Z.of_nat n)) (seq from count).

Definition sample_device (id : string) : list (string * value) :=
  [("id", PyStr id); ("name", PyStr "core");
   ("group_id", PyStr ("group-of-" ++ id)%string);
   ("api_token", PyStr ("token-of-" ++ id)%string)].

Definition fresh_world (answers : list response) : world :=
  World answers [] [] [] [].

(** One device is listed; the request for its messages gets status 500. *)
Definition failing_world : world :=
  fresh_world [ok_page [PyDict (sample_device "dev-1")];
               Response 500 (Raises ValueError)].

(** Two devices whose ids differ only after the 30th character.  The
    first has three messages, the second of which has no battery; the other
    has none. *)
Definition sample_run_a : device_run :=
  let id := "node-0123456789-0123456789-abc-left" in
  DeviceRun (sample_device id) id (PyStr "core")
    (PyStr "group-of-node-0123456789-0123456789-abc-left")
    (PyStr "token-of-node-0123456789-0123456789-abc-left")
    [[sample_message [("voltage1", PyFloat (decimal 31 10));
                      ("voltage2", PyFloat (decimal 29 10))];
      PyDict [("label", PyStr "bat-1"); ("data", PyDict [])];
      sample_message [("voltage1", PyInt 3); ("voltage2", PyInt 2)]]]
    [Some (Measurement (PyStr "bat-1") "2019-06-21 12:00:00"
             (PyFloat (decimal 234 10)) PyNone
             (PyFloat (decimal 31 10)) (PyFloat (decimal 29 10))
             (PyFloat (decimal 269 100)));
     None;
     Some (Measurement (PyStr "bat-1") "2019-06-21 12:00:00"
             (PyFloat (decimal 234 10)) PyNone
             (PyInt 3) (PyInt 2) (PyFloat (decimal 195 10)))].

Definition sample_run_b : device_run :=
  let id := "node-0123456789-0123456789-abc-right" in
  DeviceRun (sample_device id) id (PyStr "core")
    (PyStr "group-of-node-0123456789-0123456789-abc-right")
    (PyStr "token-of-node-0123456789-0123456789-abc-right")
    [[]] [].

Definition sample_world : world :=
  fresh_world
    ([ok_page [PyDict (dev_items sample_run_a); PyDict (dev_items sample_run_b)]]
     ++ map ok_page (msg_pages sample_run_a)
     ++ map ok_page (msg_pages sample_run_b)).

(** *** The writer and the two halves of [main] *)

(** A stand-in for [pandas], enough to run the model on concrete inputs: it
    opens a writer on any path, refuses a sheet whose name is empty or is
    not a string, and refuses to close a writer that was handed no sheet. *)
Definition stub_pandas : Pandas :=
  {| ExcelWriter _ := Returns tt;
     to_excel _ sheet :=
       match name sheet with
       | PyStr EmptyString => Raises ValueError
       | PyStr _ => Returns tt
       | _ => Raises TypeError
       end;
     __exit__ writer :=
       match handed writer with
       | [] => Raises IndexError
       | _ => Returns tt
       end |}.

(** pandas opens a writer on the path, takes every sheet in turn and closes
    the writer, all without an exception. *)
Definition accepted `{Pandas} (xlsx_file : string) (sheets : list sheet) : Prop :=
  ExcelWriter xlsx_file = Returns tt /\
  (forall before sheet after,
      sheets = before ++ sheet :: after ->
      to_excel (Writer xlsx_file before) sheet = Returns tt) /\
  __exit__ (Writer xlsx_file sheets) = Returns tt.

(** The orchestrator as the specification words it,
    [run(groupId, apiToken) -> ordered sequence of Sheet]: the part of
    [main] that ends when the list [sheets] is complete. *)
Definition run `{Pendulum} (group_id api_token : string) : M (list sheet) :=
  (click_echo (Format "Fetching data for group: {}..." [PyStr group_id])
     true false ;;
   devices <-
     DeviceFetcher.fetch (DeviceFetcher.__init__ (PyStr group_id) (PyStr api_token)) ;;
   main_devices devices [])%io.

(** The writer as the specification words it, [write(path, sheets)]: the
    rest of [main]. *)
Definition write `{Pandas} (xlsx_file : string) (sheets : list sheet) : M unit :=
  (click_echo (Lit "Generating XLSX file...") true false ;;
   write_xlsx xlsx_file sheets)%io.

(** One list begins with the other. *)
Definition starts_with {A} (whole part : list A) : Prop :=
  exists later, whole = part ++ later.


(** The scenario of the specification: device A has three messages, of
    which the second has no battery, device B has none. *)
Definition scenario_a : device_run :=
  DeviceRun (sample_device "dev-a") "dev-a" (PyStr "core")
    (PyStr "group-of-dev-a") (PyStr "token-of-dev-a")
    (msg_pages sample_run_a) (extracted sample_run_a).

Definition scenario_b : device_run :=
  DeviceRun (sample_device "dev-b") "dev-b" (PyStr "core")
    (PyStr "group-of-dev-b") (PyStr "token-of-dev-b")
    [[]] [].

Definition scenario_world : world :=
  fresh_world
    ([ok_page [PyDict (dev_items scenario_a); PyDict (dev_items scenario_b)]]
     ++ map ok_page (msg_pages scenario_a)
     ++ map ok_page (msg_pages scenario_b)).

(** *** Vocabulary of the further properties *)

(** The outcome is a [ZeroDivisionError]. *)
Definition zero_division {A} (r : result A) : bool :=
  match r with
  | Raises ZeroDivisionError => true
  | _ => false
  end.

(** An [int] or a [float]; a [bool] is not counted. *)
Definition is_number (v : value) : bool :=
  match v with
  | PyInt _ | PyFloat _ => true
  | _ => false
  end.

Definition is_float (v : value) : bool :=
  match v with
  | PyFloat _ => true
  | _ => false
  end.

Definition is_number_or_none (v : value) : bool :=
  match v with
  | PyNone => true
  | _ => is_number v
  end.

(** A message as the API sends it, with entries the extractor has no use
    for. *)
Definition extra_key_message : value :=
  PyDict [("id", PyInt 7);
          ("data", PyDict [("battery", PyDict [("voltage1", PyInt 3);
                                               ("voltage2", PyInt 2)])]);
          ("label", PyStr "bat-1");
          ("created_at", PyStr "2019-06-21T10:00:00+00:00");
          ("group_id", PyStr "group")].

(** The request for the page at [offset], with the limit of 100. *)
Definition page_request (endpoint : string) (fixed : list (string * value))
    (token : value) (offset : Z) : request :=
  Request endpoint (fixed ++ [("limit", PyInt 100); ("offset", PyInt offset)])
    [("Authorization", Format "Bearer {}" [token])].

(** Offsets that each lie at least [step] above the one before. *)
Inductive advancing (step : Z) : list Z -> Prop :=
| advancing_nil : advancing step []
| advancing_one o : advancing step [o]
| advancing_cons o o' rest :
    o + step <= o' -> advancing step (o' :: rest) ->
    advancing step (o :: o' :: rest).

(** The call came back with a value. *)
Definition returned {A} (out : option (result A)) : bool :=
  match out with
  | Some (Returns _) => true
  | _ => false
  end.

(** A device whose record has the four fields [main] reads and whose
    messages are served in pages. *)
Definition device_known (x : device_run) : Prop :=
  dict_find "id" (dev_items x) = Some (PyStr (dev_id x)) /\
  dict_find "name" (dev_items x) = Some (dev_name x) /\
  dict_find "group_id" (dev_items x) = Some (dev_group x) /\
  dict_find "api_token" (dev_items x) = Some (dev_token x) /\
  paging (msg_pages x).

(** The first message of the device that the extractor does not get
    through raises [e]. *)
Definition fails_at `{Pendulum} (x : device_run) (e : exn) : Prop :=
  exists before outs m after,
    List.concat (msg_pages x) = before ++ m :: after /\
    Forall2 (fun m o => extract_measurement m = Returns o) before outs /\
    extract_measurement m = Raises e.


(** What iterating over a dict yields. *)
Definition keys (items : list (string * value)) : list value :=
  map (fun kv => PyStr (fst kv)) items.

(** An exception neither handler of the script is for. *)
Definition uncaught (e : exn) : Prop :=
  e <> FetchException /\ e <> KeyboardInterrupt.

(** A device whose second message has a battery entry but no
    [created_at]. *)
Definition killed_device : device_run :=
  DeviceRun (sample_device "dev-2") "dev-2" (PyStr "core")
    (PyStr "group-of-dev-2") (PyStr "token-of-dev-2")
    [[sample_message [("voltage1", PyFloat (decimal 31 10));
                      ("voltage2", PyFloat (decimal 29 10))];
      PyDict [("label", PyStr "bat-1");
              ("data", PyDict [("battery", PyDict [("voltage1", PyInt 3)])])];
      sample_message [("voltage1", PyInt 3); ("voltage2", PyInt 2)]]]
    [].

(** ** The extractor *)

Section ExtractorFacts.
Context {P : Pendulum}.

Lemma missing_is_falsy items key :
  missing_zero_or_null (dict_find key items) ->
  truthy (get_or_none items key) = false.
Proof.
  unfold get_or_none.
  intros [E | [E | [E | [s E]]]]; rewrite E; reflexivity.
Qed.

(** Reading a temperature never fails on a well-formed path. *)
Lemma temperature_chain {A} data device (k : value -> result A) :
  sensor_path_ok data device ->
  (sensor <- get (PyDict data) "sensor" (PyDict []) ;;
   entry <- get sensor device (PyDict []) ;;
   t <- get entry "temperature" PyNone ;;
   k t)%py
  = k (match nested_temperature data device with
       | Some t => t
       | None => PyNone
       end).
Proof.
  unfold sensor_path_ok, dict_if_present, nested_temperature.
  cbn [get rbind].
  destruct (dict_find "sensor" data) as [[| | | | | | sensor]|];
    try contradiction; cbn [get rbind dict_find]; [|reflexivity].
  destruct (dict_find device sensor) as [[| | | | | | entry]|];
    try contradiction; cbn [get rbind dict_find]; [|reflexivity].
  destruct (dict_find "temperature" entry); reflexivity.
Qed.

(** The message up to the test on the voltages. *)
Lemma extract_measurement_unfold items data battery s d :
  dict_find "data" items = Some (PyDict data) ->
  dict_find "battery" data = Some (PyDict battery) ->
  dict_find "created_at" items = Some (PyStr s) ->
  local_datetime s = Returns d ->
  sensor_path_ok data "thermometer" ->
  sensor_path_ok data "hygrometer" ->
  extract_measurement (PyDict items) =
  (let t1 := match nested_temperature data "thermometer" with
             | Some t => t | None => PyNone end in
   let t2 := match nested_temperature data "hygrometer" with
             | Some t => t | None => PyNone end in
   let v1 := get_or_none battery "voltage1" in
   let v2 := get_or_none battery "voltage2" in
   if truthy v1 && truthy v2 then
     label <- getitem (PyDict items) "label" ;;
     t1' <- round_opt t1 1 ;;
     t2' <- round_opt t2 1 ;;
     v1' <- round v1 2 ;;
     v2' <- round v2 2 ;;
     q <- load_resistance v1 v2 ;;
     r <- round q 2 ;;
     Returns (Some (Measurement label d t1' t2' v1' v2' r))
   else Returns None)%py.
Proof.
  intros Hdata Hbat Hdate Hparse Hth Hhy.
  unfold extract_measurement.
  cbn [getitem contains rbind negb parse_date].
  rewrite Hdata. cbn [getitem contains rbind negb].
  rewrite Hbat. cbn [getitem contains rbind negb get].
  rewrite Hdate. cbn [rbind parse_date]. rewrite Hparse. cbn [rbind].
  fold (get (PyDict data) "sensor" (PyDict [])).
  assert (Hv : forall key,
             match dict_find key battery with
             | Some v => Returns v
             | None => Returns PyNone
             end = Returns (get_or_none battery key)).
  { intros key. unfold get_or_none. destruct (dict_find key battery); reflexivity. }
  rewrite !Hv. cbn [rbind].
  rewrite (temperature_chain data "thermometer") by assumption.
  rewrite (temperature_chain data "hygrometer") by assumption.
  reflexivity.
Qed.

Lemma round_opt_spec reading field :
  rounded_temperature reading field ->
  round_opt (match reading with Some t => t | None => PyNone end) 1
  = Returns field.
Proof.
  unfold rounded_temperature, round_opt.
  destruct reading as [[]|]; intros E; subst; auto.
Qed.
End ExtractorFacts.

(** On two floats the resistance is three IEEE operations and cannot
    raise: the divisor is a voltage that passed the truth test. *)
Lemma load_resistance_floats f1 f2 :
  float_is_zero f2 = false ->
  load_resistance (PyFloat f1) (PyFloat f2) =
  Returns (PyFloat (SFdiv prec emax
                      (SFmul prec emax (decimal 39 1) (SFsub prec emax f1 f2))
                      f2)).
Proof.
  intros Hz. unfold load_resistance, sub, mul, truediv.
  cbn [as_number rbind to_float].
  change (float_of_int LOAD_RESISTOR) with (Returns (decimal 39 1)).
  cbn [rbind]. rewrite Hz. reflexivity.
Qed.

(** Rounding an [int] gives the [int] back and cannot raise. *)
Lemma round_int z ndigits : round (PyInt z) ndigits = Returns (PyInt z).
Proof. reflexivity. Qed.

Lemma round_opt_inv reading field :
  round_opt (match reading with Some t => t | None => PyNone end) 1
  = Returns field ->
  rounded_temperature reading field.
Proof.
  unfold rounded_temperature, round_opt.
  destruct reading as [[]|]; intros E; auto; congruence.
Qed.

(** C1 (amended).  Take a message that is a dict with a [created_at] that
    pendulum parses and [data] whose [battery] is a dict with [voltage1] and
    [voltage2] both present and truthy, and whose sensor entries are dicts
    when present.  If the label is there and the roundings and the
    resistance expression raise nothing, the extractor returns the record
    with: the label, the local date, [t1]/[t2] = the nested temperature
    rounded to 1 decimal ([None] when absent at any level or null),
    [v1]/[v2] = the voltages rounded to 2 decimals, and
    [r] = [round(39 * (v1 - v2) / v2, 2)] computed from the voltages of the
    message, not from the rounded ones.  Conversely, whatever the extractor
    returns on such a message is a record of that form, never [None]. *)
Theorem extract_measurement_record (P : Pendulum)
    items data battery s d voltage1 voltage2 :
  dict_find "data" items = Some (PyDict data) ->
  dict_find "battery" data = Some (PyDict battery) ->
  dict_find "voltage1" battery = Some voltage1 -> truthy voltage1 = true ->
  dict_find "voltage2" battery = Some voltage2 -> truthy voltage2 = true ->
  dict_find "created_at" items = Some (PyStr s) ->
  local_datetime s = Returns d ->
  sensor_path_ok data "thermometer" ->
  sensor_path_ok data "hygrometer" ->
  (forall lbl t1' t2' v1' v2' q r',
      dict_find "label" items = Some lbl ->
      rounded_temperature (nested_temperature data "thermometer") t1' ->
      rounded_temperature (nested_temperature data "hygrometer") t2' ->
      round voltage1 2 = Returns v1' ->
      round voltage2 2 = Returns v2' ->
      (x <- sub voltage1 voltage2 ;; y <- mul (PyInt 39) x ;; truediv y voltage2)%py
      = Returns q ->
      round q 2 = Returns r' ->
      extract_measurement (PyDict items)
      = Returns (Some (Measurement lbl d t1' t2' v1' v2' r')))
  /\
  (forall out,
      extract_measurement (PyDict items) = Returns out ->
      exists lbl t1' t2' v1' v2' q r',
        out = Some (Measurement lbl d t1' t2' v1' v2' r') /\
        dict_find "label" items = Some lbl /\
        rounded_temperature (nested_temperature data "thermometer") t1' /\
        rounded_temperature (nested_temperature data "hygrometer") t2' /\
        round voltage1 2 = Returns v1' /\
        round voltage2 2 = Returns v2' /\
        (x <- sub voltage1 voltage2 ;; y <- mul (PyInt 39) x ;; truediv y voltage2)%py
        = Returns q /\
        round q 2 = Returns r').
Proof.
  intros Hdata Hbat H1 T1 H2 T2 Hdate Hparse Hth Hhy.
  rewrite (extract_measurement_unfold items data battery s d) by assumption.
  cbv zeta. unfold get_or_none. rewrite H1, H2, T1, T2.
  cbn [andb getitem]. unfold load_resistance.
  change (PyInt LOAD_RESISTOR) with (PyInt 39).
  split.
  - intros lbl t1' t2' v1' v2' q r' Hlbl Ht1 Ht2 Hv1 Hv2 Hq Hr.
    rewrite Hlbl. cbn [rbind].
    rewrite (round_opt_spec _ _ Ht1). cbn [rbind].
    rewrite (round_opt_spec _ _ Ht2). cbn [rbind].
    rewrite Hv1, Hv2. cbn [rbind].
    rewrite Hq. cbn [rbind]. rewrite Hr. reflexivity.
  - intros out.
    destruct (dict_find "label" items) as [lbl |]; [| discriminate].
    cbn [rbind].
    destruct (round_opt _ 1) as [t1' |] eqn:Ht1; [| discriminate]. cbn [rbind].
    destruct (round_opt _ 1) as [t2' |] eqn:Ht2 in |- *; [| discriminate].
    cbn [rbind].
    destruct (round voltage1 2) as [v1' |]; [| discriminate]. cbn [rbind].
    destruct (round voltage2 2) as [v2' |]; [| discriminate]. cbn [rbind].
    destruct (x <- sub voltage1 voltage2 ;; y <- mul (PyInt 39) x ;;
              truediv y voltage2)%py as [q |]; [| discriminate]. cbn [rbind].
    destruct (round q 2) as [r' |] eqn:Hr; [| discriminate].
    intros E. injection E as <-.
    exists lbl, t1', t2', v1', v2', q, r'.
    repeat split; auto using round_opt_inv.
Qed.

(** The sample message with voltages 3.1 and 2.9 and a thermometer reading
    of 23.45 gives v1 = 3.1, v2 = 2.9, t1 = 23.4, t2 = None, r = 2.69. *)
Lemma extract_measurement_record_witness :
  @extract_measurement stub_pendulum
    (sample_message [("voltage1", PyFloat (decimal 31 10));
                     ("voltage2", PyFloat (decimal 29 10))])
  = Returns (Some (Measurement (PyStr "bat-1") "2019-06-21 12:00:00"
                     (PyFloat (decimal 234 10)) PyNone
                     (PyFloat (decimal 31 10)) (PyFloat (decimal 29 10))
                     (PyFloat (decimal 269 100)))).
Proof.
  edestruct (extract_measurement_record stub_pendulum) as [Hrecord _];
    [ .. | eapply Hrecord ];
    try (vm_compute; reflexivity); vm_compute; exact I.
Defined.

(** C1, counterexample.  Both voltages are present and truthy, every field
    of the message has its documented type, and still no record comes back:
    the division of two [int]s leaves the range of a double and raises
    [OverflowError] (or pendulum raised before). *)
Lemma extract_measurement_record_counterexample :
  truthy (PyInt (10 ^ 400)) = true /\ truthy (PyInt 1) = true /\
  forall P : Pendulum,
    exists e,
      @extract_measurement P
        (sample_message [("voltage1", PyInt (10 ^ 400)); ("voltage2", PyInt 1)])
      = Raises e.
Proof.
  split; [reflexivity | split; [reflexivity |]].
  intros P.
  destruct (local_datetime "2019-06-21T10:00:00+00:00") as [d | e] eqn:Hparse.
  - exists OverflowError. unfold sample_message.
    erewrite extract_measurement_unfold;
      [ | reflexivity | reflexivity | reflexivity | exact Hparse
        | exact I | exact I ].
    vm_compute. reflexivity.
  - exists e. unfold sample_message, extract_measurement.
    cbn [getitem contains rbind negb dict_find String.eqb Ascii.eqb Bool.eqb
         parse_date].
    rewrite Hparse. reflexivity.
Qed.

Section Absent.
Context {P : Pendulum}.

Lemma extract_measurement_no_battery items data :
  dict_find "data" items = Some (PyDict data) ->
  dict_find "battery" data = None ->
  extract_measurement (PyDict items) = Returns None.
Proof.
  intros Hdata Hbat. unfold extract_measurement.
  cbn [getitem rbind]. rewrite Hdata. cbn [contains rbind].
  rewrite Hbat. reflexivity.
Qed.

Lemma extract_measurement_no_voltage items data battery s d :
  dict_find "data" items = Some (PyDict data) ->
  dict_find "battery" data = Some (PyDict battery) ->
  dict_find "created_at" items = Some (PyStr s) ->
  local_datetime s = Returns d ->
  sensor_path_ok data "thermometer" ->
  sensor_path_ok data "hygrometer" ->
  missing_zero_or_null (dict_find "voltage1" battery) \/
  missing_zero_or_null (dict_find "voltage2" battery) ->
  extract_measurement (PyDict items) = Returns None.
Proof.
  intros Hdata Hbat Hdate Hparse Hth Hhy Hv.
  rewrite (extract_measurement_unfold items data battery s d) by assumption.
  cbv zeta.
  destruct Hv as [Hv | Hv]; rewrite (missing_is_falsy _ _ Hv).
  - reflexivity.
  - rewrite Bool.andb_false_r. reflexivity.
Qed.

Lemma extract_measurement_no_data items :
  dict_find "data" items = None ->
  extract_measurement (PyDict items) = Raises KeyError.
Proof.
  intros Hdata. unfold extract_measurement.
  cbn [getitem rbind]. rewrite Hdata. reflexivity.
Qed.

Lemma extract_measurement_bad_date items data battery s e :
  dict_find "data" items = Some (PyDict data) ->
  dict_find "battery" data = Some battery ->
  dict_find "created_at" items = Some (PyStr s) ->
  local_datetime s = Raises e ->
  extract_measurement (PyDict items) = Raises e.
Proof.
  intros Hdata Hbat Hdate Hparse. unfold extract_measurement.
  cbn [getitem rbind]. rewrite Hdata. cbn [contains rbind].
  rewrite Hbat. cbn [negb rbind]. rewrite Hdate. cbn [rbind parse_date].
  rewrite Hparse. reflexivity.
Qed.
(** Reading a temperature through an entry that is not a dict fails. *)
Lemma temperature_chain_bad {A} data device (k : value -> result A) :
  ~ sensor_path_ok data device ->
  (sensor <- get (PyDict data) "sensor" (PyDict []) ;;
   entry <- get sensor device (PyDict []) ;;
   t <- get entry "temperature" PyNone ;;
   k t)%py
  = Raises AttributeError.
Proof.
  unfold sensor_path_ok, dict_if_present. cbn [get rbind]. intros Hbad.
  destruct (dict_find "sensor" data) as [[| | | | | | sensor]|];
    cbn [get rbind dict_find]; try reflexivity;
    [| exfalso; apply Hbad; exact I].
  destruct (dict_find device sensor) as [[| | | | | | entry]|];
    cbn [get rbind dict_find]; try reflexivity;
    exfalso; apply Hbad; exact I.
Qed.

Lemma sensor_path_ok_dec data device :
  sensor_path_ok data device \/ ~ sensor_path_ok data device.
Proof.
  unfold sensor_path_ok, dict_if_present.
  destruct (dict_find "sensor" data) as [[| | | | | | sensor]|]; auto.
  destruct (dict_find device sensor) as [[| | | | | | entry]|]; auto.
Qed.

(** The battery is there, but the date or a temperature cannot be read:
    the call raises, whatever the voltages are. *)
Lemma extract_measurement_unreadable items data battery :
  dict_find "data" items = Some (PyDict data) ->
  dict_find "battery" data = Some (PyDict battery) ->
  ~ ((exists s d, dict_find "created_at" items = Some (PyStr s) /\
                  local_datetime s = Returns d) /\
     sensor_path_ok data "thermometer" /\
     sensor_path_ok data "hygrometer") ->
  exists e, extract_measurement (PyDict items) = Raises e.
Proof.
  intros Hdata Hbat Hbad. unfold extract_measurement.
  cbn [getitem contains rbind negb parse_date].
  rewrite Hdata. cbn [getitem contains rbind negb].
  rewrite Hbat. cbn [getitem contains rbind negb get].
  destruct (dict_find "created_at" items) as [created_at |] eqn:Hdate;
    [| eexists; reflexivity].
  destruct created_at as [| | | | s | |];
    try (eexists; reflexivity).
  cbn [rbind parse_date].
  destruct (local_datetime s) as [d | e] eqn:Hparse;
    [| eexists; reflexivity].
  cbn [rbind].
  fold (get (PyDict data) "sensor" (PyDict [])).
  destruct (dict_find "voltage1" battery), (dict_find "voltage2" battery);
    cbn [rbind];
    (destruct (sensor_path_ok_dec data "thermometer") as [Hth | Hth];
     [ rewrite (temperature_chain data "thermometer") by assumption;
       destruct (sensor_path_ok_dec data "hygrometer") as [Hhy | Hhy];
       [ exfalso; apply Hbad; split; [exists s, d; auto | auto]
       | rewrite (temperature_chain_bad data "hygrometer") by assumption;
         eexists; reflexivity ]
     | rewrite (temperature_chain_bad data "thermometer") by assumption;
       eexists; reflexivity ]).
Qed.
End Absent.

(** C2 (amended).  A message whose [data] has no [battery] gives [None]
    without an exception.  A message whose [battery] is a dict in which
    [voltage1] or [voltage2] is missing, zero or null gives [None] without an
    exception provided [created_at] is a text pendulum parses and the sensor
    entries are dicts when present; otherwise it raises: the date is parsed
    and the temperatures are read before the voltages are tested. *)
Theorem extract_measurement_absent (P : Pendulum) :
  (forall items data,
      dict_find "data" items = Some (PyDict data) ->
      dict_find "battery" data = None ->
      extract_measurement (PyDict items) = Returns None)
  /\
  (forall items data battery s d,
      dict_find "data" items = Some (PyDict data) ->
      dict_find "battery" data = Some (PyDict battery) ->
      dict_find "created_at" items = Some (PyStr s) ->
      local_datetime s = Returns d ->
      sensor_path_ok data "thermometer" ->
      sensor_path_ok data "hygrometer" ->
      missing_zero_or_null (dict_find "voltage1" battery) \/
      missing_zero_or_null (dict_find "voltage2" battery) ->
      extract_measurement (PyDict items) = Returns None)
  /\
  (forall items data battery,
      dict_find "data" items = Some (PyDict data) ->
      dict_find "battery" data = Some (PyDict battery) ->
      missing_zero_or_null (dict_find "voltage1" battery) \/
      missing_zero_or_null (dict_find "voltage2" battery) ->
      ~ ((exists s d, dict_find "created_at" items = Some (PyStr s) /\
                      local_datetime s = Returns d) /\
         sensor_path_ok data "thermometer" /\
         sensor_path_ok data "hygrometer") ->
      exists e, extract_measurement (PyDict items) = Raises e).
Proof.
  split; [| split].
  - apply extract_measurement_no_battery.
  - apply extract_measurement_no_voltage.
  - intros items data battery Hdata Hbat _.
    apply (extract_measurement_unreadable items data battery); assumption.
Qed.

(** A message without battery, and the sample message with a zero
    [voltage2], both give [None]; a message with an empty battery and a
    thermometer entry that is a number raises. *)
Lemma extract_measurement_absent_witness :
  @extract_measurement stub_pendulum (PyDict [("data", PyDict [])]) = Returns None
  /\
  @extract_measurement stub_pendulum
    (sample_message [("voltage1", PyFloat (decimal 31 10));
                     ("voltage2", PyFloat (S754_zero false))])
  = Returns None
  /\
  exists e,
    @extract_measurement stub_pendulum
      (PyDict [("created_at", PyStr "2019-06-21T10:00:00+00:00");
               ("data", PyDict [("battery", PyDict []);
                                ("sensor", PyDict [("thermometer", PyInt 21)])])])
    = Raises e.
Proof.
  split; [| split].
  - apply (proj1 (extract_measurement_absent stub_pendulum)
             [("data", PyDict [])] []); reflexivity.
  - eapply (proj1 (proj2 (extract_measurement_absent stub_pendulum)));
      try reflexivity; try exact I.
    right. right. right. right. exists false. reflexivity.
  - eapply (proj2 (proj2 (extract_measurement_absent stub_pendulum)));
      try reflexivity.
    + left. left. reflexivity.
    + intros (_ & Hth & _). exact Hth.
Defined.

(** C2, counterexample.  The battery is there and [voltage1] is missing,
    yet the call raises: [KeyError] when the message has no [created_at],
    whatever pendulum does, and pendulum's own error when [created_at] is not
    a timestamp. *)
Lemma extract_measurement_absent_counterexample :
  missing_zero_or_null (dict_find "voltage1" []) /\
  (forall P : Pendulum,
      @extract_measurement P
        (PyDict [("label", PyStr "bat-1");
                 ("data", PyDict [("battery", PyDict [])])])
      = Raises KeyError) /\
  @extract_measurement stub_pendulum
    (PyDict [("label", PyStr "bat-1");
             ("created_at", PyStr "n/a");
             ("data", PyDict [("battery", PyDict [])])])
  = Raises ParserError.
Proof.
  split; [left; reflexivity | split; [intros P |]; reflexivity].
Qed.

(** C10.  The extractor raises [KeyError] on a message without [data]; on
    a message whose battery is present it raises whatever pendulum raises
    on [created_at], before the voltages are looked at; the same message
    with voltages missing and a [created_at] that parses gives [None]. *)
Theorem extract_measurement_not_total (P : Pendulum) :
  (forall items,
      dict_find "data" items = None ->
      extract_measurement (PyDict items) = Raises KeyError)
  /\
  (forall items data battery s e,
      dict_find "data" items = Some (PyDict data) ->
      dict_find "battery" data = Some battery ->
      dict_find "created_at" items = Some (PyStr s) ->
      local_datetime s = Raises e ->
      extract_measurement (PyDict items) = Raises e)
  /\
  (forall items data battery s d,
      dict_find "data" items = Some (PyDict data) ->
      dict_find "battery" data = Some (PyDict battery) ->
      dict_find "created_at" items = Some (PyStr s) ->
      local_datetime s = Returns d ->
      sensor_path_ok data "thermometer" ->
      sensor_path_ok data "hygrometer" ->
      missing_zero_or_null (dict_find "voltage1" battery) \/
      missing_zero_or_null (dict_find "voltage2" battery) ->
      extract_measurement (PyDict items) = Returns None).
Proof.
  split; [| split].
  - apply extract_measurement_no_data.
  - apply extract_measurement_bad_date.
  - apply extract_measurement_no_voltage.
Qed.

(** No [data]: [KeyError].  Empty battery and a [created_at] that is no
    timestamp: [ParserError]; with the known timestamp: [None]. *)
Lemma extract_measurement_not_total_witness :
  @extract_measurement stub_pendulum (PyDict [("label", PyStr "bat-1")])
  = Raises KeyError
  /\
  @extract_measurement stub_pendulum
    (PyDict [("created_at", PyStr "n/a");
             ("data", PyDict [("battery", PyDict [])])])
  = Raises ParserError
  /\
  @extract_measurement stub_pendulum
    (PyDict [("created_at", PyStr "2019-06-21T10:00:00+00:00");
             ("data", PyDict [("battery", PyDict [])])])
  = Returns None.
Proof.
  pose proof (extract_measurement_not_total stub_pendulum) as [H1 [H2 H3]].
  split; [| split].
  - apply H1. reflexivity.
  - eapply H2; reflexivity.
  - eapply H3; try reflexivity; try exact I. left. left. reflexivity.
Defined.

(** ** The monad *)

Lemma bind_ext {A B} (m : M A) (k1 k2 : A -> M B) w :
  (forall a w', k1 a w' = k2 a w') -> bind m k1 w = bind m k2 w.
Proof.
  intros E. unfold bind. destruct (m w) as [[[a | e] |] w']; auto.
Qed.

Lemma bind_returns {A B} (m : M A) (k : A -> M B) w a w' :
  m w = (Some (Returns a), w') -> bind m k w = k a w'.
Proof. intros E. unfold bind. rewrite E. reflexivity. Qed.

(** ** Both fetchers are the generic one *)

Lemma DeviceFetcher_loop_generic fuel self found records offset limit w :
  DeviceFetcher.fetch_loop fuel self found records offset limit w =
  fetchAll_loop fuel devices_url
    [("group_id", DeviceFetcher._group_id self)] (DeviceFetcher._api_token self)
    found records offset limit w.
Proof.
  revert found records offset w.
  induction fuel as [| fuel IH]; intros found records offset w; [reflexivity |].
  cbn [DeviceFetcher.fetch_loop fetchAll_loop].
  apply bind_ext; intros _ w1.
  apply bind_ext; intros data w2.
  apply bind_ext; intros count w3.
  apply bind_ext; intros more w4.
  destruct ((count =? 0) || (count <? limit)); [reflexivity | apply IH].
Qed.

Lemma DeviceFetcher_fetch_generic self w :
  DeviceFetcher.fetch self w =
  fetchAll devices_url [("group_id", DeviceFetcher._group_id self)]
    (DeviceFetcher._api_token self) w.
Proof.
  unfold DeviceFetcher.fetch, fetchAll, bind.
  rewrite DeviceFetcher_loop_generic. reflexivity.
Qed.

Lemma MessageFetcher_loop_generic fuel self found records offset limit w :
  MessageFetcher.fetch_loop fuel self found records offset limit w =
  fetchAll_loop fuel messages_url
    [("group_id", MessageFetcher._group_id self);
     ("device_id", MessageFetcher._device_id self)]
    (MessageFetcher._api_token self) found records offset limit w.
Proof.
  revert found records offset w.
  induction fuel as [| fuel IH]; intros found records offset w; [reflexivity |].
  cbn [MessageFetcher.fetch_loop fetchAll_loop].
  apply bind_ext; intros _ w1.
  apply bind_ext; intros data w2.
  apply bind_ext; intros count w3.
  apply bind_ext; intros more w4.
  destruct ((count =? 0) || (count <? limit)); [reflexivity | apply IH].
Qed.

Lemma MessageFetcher_fetch_generic self w :
  MessageFetcher.fetch self w =
  fetchAll messages_url
    [("group_id", MessageFetcher._group_id self);
     ("device_id", MessageFetcher._device_id self)]
    (MessageFetcher._api_token self) w.
Proof.
  unfold MessageFetcher.fetch, fetchAll, bind.
  rewrite MessageFetcher_loop_generic. reflexivity.
Qed.

(** ** A listing served in pages is fetched whole *)

Lemma full_page_continues (page : list value) :
  (100 <= List.length page)%nat ->
  (Z.of_nat (List.length page) =? 0) || (Z.of_nat (List.length page) <? 100) = false.
Proof.
  intros H. apply Bool.orb_false_iff. split.
  - apply Z.eqb_neq. lia.
  - apply Z.ltb_ge. lia.
Qed.

Lemma short_page_stops (page : list value) :
  (List.length page < 100)%nat ->
  (Z.of_nat (List.length page) =? 0) || (Z.of_nat (List.length page) <? 100) = true.
Proof.
  intros H. apply Bool.orb_true_iff. right. apply Z.ltb_lt. lia.
Qed.

Lemma get_page_ok endpoint fixed token limit offset page rest h so se fi :
  get_page endpoint fixed token limit offset
    (World (ok_page page :: rest) h so se fi)
  = (Some (Returns (PyList page)),
     World rest
       (h ++ [(Request endpoint
                 (fixed ++ [("limit", PyInt limit); ("offset", PyInt offset)])
                 [("Authorization", Format "Bearer {}" [token])],
               Some (ok_page page))])
       so se fi).
Proof. reflexivity. Qed.

Lemma fetchAll_loop_step fuel endpoint fixed token found records offset
    page rest h so se fi :
  fetchAll_loop (S fuel) endpoint fixed token found records offset 100
    (World (ok_page page :: rest) h so se fi)
  = let w' := World rest (h ++ [exchange endpoint fixed token offset page])
                (so ++ [(Lit ".", false)]) se fi in
    if (Z.of_nat (List.length page) =? 0) || (Z.of_nat (List.length page) <? 100)
    then (Some (Returns (true, records ++ page)), w')
    else fetchAll_loop fuel endpoint fixed token true (records ++ page)
           (offset + Z.of_nat (List.length page)) 100 w'.
Proof.
  cbn [fetchAll_loop]. unfold bind at 1.
  cbn [click_echo pending http stdout stderr files].
  erewrite bind_returns by apply get_page_ok.
  unfold bind, lift. cbn [len elements]. cbv zeta. unfold exchange.
  destruct ((Z.of_nat (List.length page) =? 0)
            || (Z.of_nat (List.length page) <? 100)); reflexivity.
Qed.

Lemma fetchAll_loop_paging endpoint fixed token pages :
  paging pages ->
  forall fuel found records offset rest h so se fi,
    (List.length pages <= fuel)%nat ->
    fetchAll_loop fuel endpoint fixed token found records offset 100
      (World (map ok_page pages ++ rest) h so se fi)
    = (Some (Returns (true, records ++ List.concat pages)),
       World rest (h ++ exchanges endpoint fixed token offset pages)
         (so ++ repeat (Lit ".", false) (List.length pages)) se fi).
Proof.
  induction 1 as [page Hshort | page pages Hfull Hrest IH];
    intros fuel found records offset rest h so se fi Hfuel;
    (destruct fuel as [| fuel]; [cbn in Hfuel; lia |]);
    cbn [map app]; rewrite fetchAll_loop_step; cbv zeta.
  - rewrite short_page_stops by assumption.
    cbn. rewrite app_nil_r. reflexivity.
  - rewrite full_page_continues by assumption.
    rewrite IH by (cbn in Hfuel; lia).
    cbn [List.concat exchanges List.length repeat].
    rewrite <- !app_assoc. reflexivity.
Qed.

Lemma fetchAll_paging endpoint fixed token pages rest w :
  paging pages ->
  pending w = map ok_page pages ++ rest ->
  fetchAll endpoint fixed token w
  = (Some (Returns (List.concat pages)),
     World rest (http w ++ exchanges endpoint fixed token 0 pages)
       (stdout w ++ repeat (Lit ".", false) (List.length pages) ++ [(Lit "", true)])
       (stderr w) (files w)).
Proof.
  intros Hp Hw. destruct w as [pend h so se fi]. cbn in Hw. subst pend.
  unfold fetchAll. cbn [pending http stdout stderr files].
  erewrite bind_returns.
  2:{ apply fetchAll_loop_paging; [assumption |].
      rewrite length_app, length_map. lia. }
  cbn. rewrite <- app_assoc. reflexivity.
Qed.

(** ** A failed request aborts everything *)

Lemma fetchAll_loop_unfold fuel endpoint fixed token found records offset limit
    pend h so se fi :
  fetchAll_loop (S fuel) endpoint fixed token found records offset limit
    (World pend h so se fi)
  = let rq := Request endpoint
                (fixed ++ [("limit", PyInt limit); ("offset", PyInt offset)])
                [("Authorization", Format "Bearer {}" [token])] in
    match pend with
    | [] => (None, World [] (h ++ [(rq, None)]) (so ++ [(Lit ".", false)]) se fi)
    | r :: rest =>
        let w' := World rest (h ++ [(rq, Some r)]) (so ++ [(Lit ".", false)]) se fi in
        if negb (status_code r =? 200) then (Some (Raises FetchException), w')
        else
          match loads_text r with
          | Raises e => (Some (Raises e), w')
          | Returns page =>
              match len page, elements page with
              | Raises e, _ => (Some (Raises e), w')
              | Returns _, Raises e => (Some (Raises e), w')
              | Returns count, Returns more =>
                  if (count =? 0) || (count <? limit)
                  then (Some (Returns (true, records ++ more)), w')
                  else fetchAll_loop fuel endpoint fixed token true
                         (records ++ more) (offset + count) limit w'
              end
          end
    end.
Proof.
  cbn [fetchAll_loop]. unfold bind at 1.
  cbn [click_echo pending http stdout stderr files].
  unfold get_page, requests_get, bind.
  cbn [pending http stdout stderr files]. cbv zeta.
  destruct pend as [| r rest]; [reflexivity |].
  destruct (negb (status_code r =? 200)); [reflexivity |].
  unfold lift.
  destruct (loads_text r) as [page | e]; [| reflexivity].
  destruct (len page) as [count | e]; [| reflexivity].
  destruct (elements page) as [more | e]; [| reflexivity].
  destruct ((count =? 0) || (count <? limit)); reflexivity.
Qed.

(** The bound on the iterations is never what stops the loop: an
    iteration uses up a pending answer, and with none left the request
    itself never returns. *)
Lemma fetchAll_loop_fuel endpoint fixed token fuel1 :
  forall fuel2 found records offset limit w,
    (List.length (pending w) < fuel1)%nat ->
    (List.length (pending w) < fuel2)%nat ->
    fetchAll_loop fuel1 endpoint fixed token found records offset limit w
    = fetchAll_loop fuel2 endpoint fixed token found records offset limit w.
Proof.
  induction fuel1 as [| fuel1 IH];
    intros fuel2 found records offset limit w H1 H2; [lia |].
  destruct fuel2 as [| fuel2]; [lia |].
  destruct w as [pend h so se fi]. cbn [pending] in H1, H2.
  rewrite !fetchAll_loop_unfold. cbv zeta.
  destruct pend as [| r rest]; [reflexivity |].
  destruct (negb (status_code r =? 200)); [reflexivity |].
  destruct (loads_text r) as [page | e]; [| reflexivity].
  destruct (len page) as [count | e]; [| reflexivity].
  destruct (elements page) as [more | e]; [| reflexivity].
  destruct ((count =? 0) || (count <? limit)); [reflexivity |].
  apply IH; cbn [pending List.length] in *; lia.
Qed.

(** The first three parts of [quiet]: the log grows, nothing else moves. *)
Ltac frame :=
  split; [solve [auto] | split; [solve [auto] | split; [solve [auto] |]]].

Ltac nothing_sent :=
  intros w; exists []; cbn; rewrite app_nil_r; frame;
  intros [| ? ?] ? ? E; discriminate E.

Lemma quiet_ret {A} (a : A) : quiet (ret a).
Proof. nothing_sent. Qed.

Lemma quiet_lift {A} (r : result A) : quiet (lift r).
Proof. nothing_sent. Qed.

Lemma quiet_hang {A} : quiet (@hang A).
Proof. nothing_sent. Qed.

Lemma quiet_echo message nl : quiet (click_echo message nl false).
Proof. nothing_sent. Qed.

Lemma quiet_bind {A B} (m : M A) (k : A -> M B) :
  quiet m -> (forall a, quiet (k a)) -> quiet (bind m k).
Proof.
  intros Hm Hk w. unfold bind.
  destruct (Hm w) as (new1 & Hh1 & Hs1 & Hf1 & Hx1).
  destruct (m w) as [[[a | e] |] w1]; cbn [fst snd] in *.
  - destruct (Hk a w1) as (new2 & Hh2 & Hs2 & Hf2 & Hx2).
    exists (new1 ++ new2). rewrite Hh2, Hh1, Hs2, Hs1, Hf2, Hf1, app_assoc.
    frame. intros before x after E Hx.
    apply app_eq_app in E. destruct E as [l [[E1 E2] | [E1 E2]]].
    + destruct l as [| y l]; cbn [app] in E2.
      * apply (Hx2 [] x after); [symmetry; exact E2 | exact Hx].
      * injection E2 as <- ->.
        destruct (Hx1 _ _ _ E1 Hx) as [_ Habs]. discriminate.
    + apply (Hx2 l x after); [exact E2 | exact Hx].
  - exists new1. frame. intros before x after E Hx.
    destruct (Hx1 _ _ _ E Hx) as [Hafter Hout].
    split; [exact Hafter | inversion Hout; reflexivity].
  - exists new1. frame. intros before x after E Hx.
    destruct (Hx1 _ _ _ E Hx) as [Hafter Hout]. discriminate.
Qed.

(** One answered request: quiet when a status other than 200 makes the
    outcome [FetchException]. *)
Lemma quiet_get_page endpoint fixed token limit offset :
  quiet (get_page endpoint fixed token limit offset).
Proof.
  intros w. unfold get_page, requests_get, bind.
  destruct (pending w) as [| r rest].
  - eexists. cbn [fst snd http stderr files]. frame.
    intros before x after E Hx. symmetry in E. apply elt_eq_unit in E.
    destruct E as (-> & _ & _). destruct Hx.
  - destruct (negb (status_code r =? 200)) eqn:Hstatus.
    + eexists. cbn [fst snd http stderr files raise]. frame.
      intros before x after E Hx. symmetry in E. apply elt_eq_unit in E.
      destruct E as (_ & _ & ->). auto.
    + eexists. cbn [fst snd http stderr files lift]. frame.
      intros before x after E Hx. symmetry in E. apply elt_eq_unit in E.
      destruct E as (-> & _ & _).
      unfold failed in Hx. cbn [snd] in Hx.
      apply Bool.negb_false_iff, Z.eqb_eq in Hstatus. contradiction.
Qed.

Lemma quiet_fetchAll_loop fuel endpoint fixed token :
  forall found records offset limit,
    quiet (fetchAll_loop fuel endpoint fixed token found records offset limit).
Proof.
  induction fuel as [| fuel IH]; intros found records offset limit;
    cbn [fetchAll_loop]; [apply quiet_hang |].
  apply quiet_bind; [apply quiet_echo | intros _].
  apply quiet_bind; [apply quiet_get_page | intros page].
  apply quiet_bind; [apply quiet_lift | intros count].
  apply quiet_bind; [apply quiet_lift | intros more].
  destruct ((count =? 0) || (count <? limit)); [apply quiet_ret | apply IH].
Qed.

Lemma quiet_fetchAll endpoint fixed token : quiet (fetchAll endpoint fixed token).
Proof.
  intros w. unfold fetchAll.
  apply quiet_bind.
  - apply quiet_fetchAll_loop.
  - intros [found records]. apply quiet_bind.
    + destruct found; [apply quiet_echo | apply quiet_ret].
    + intros _. apply quiet_ret.
Qed.

Lemma quiet_ext {A} (m1 m2 : M A) : (forall w, m1 w = m2 w) -> quiet m2 -> quiet m1.
Proof. intros E H w. rewrite E. apply H. Qed.

Lemma quiet_DeviceFetcher self : quiet (DeviceFetcher.fetch self).
Proof. apply (quiet_ext _ _ (DeviceFetcher_fetch_generic _)), quiet_fetchAll. Qed.

Lemma quiet_MessageFetcher self : quiet (MessageFetcher.fetch self).
Proof. apply (quiet_ext _ _ (MessageFetcher_fetch_generic _)), quiet_fetchAll. Qed.

Lemma quiet_main_devices `{Pendulum} devices :
  forall sheets, quiet (main_devices devices sheets).
Proof.
  induction devices as [| device devices IH]; intros sheets.
  - apply quiet_ret.
  - cbn [main_devices].
    repeat first
      [ apply quiet_lift | apply quiet_echo | apply IH
      | apply quiet_MessageFetcher
      | apply quiet_bind; [| intros ?] ].
Qed.

(** ** The two halves of [main] *)

Section Halves.
Context {P : Pendulum} {Q : Pandas}.

Lemma main_run_write xlsx_file group_id api_token w :
  main xlsx_file group_id api_token w
  = (sheets <- run group_id api_token ;; write xlsx_file sheets)%io w.
Proof.
  unfold main, run, write, bind.
  destruct (click_echo _ true false w) as [[[[] | e] |] w1]; try reflexivity.
  destruct (DeviceFetcher.fetch _ w1) as [[[devices | e] |] w2]; reflexivity.
Qed.

Lemma quiet_run group_id api_token : quiet (run group_id api_token).
Proof.
  unfold run.
  repeat first
    [ apply quiet_echo | apply quiet_main_devices | apply quiet_DeviceFetcher
    | apply quiet_bind; [| intros ?] ].
Qed.

(** The loop of the [with] block hands over the sheets in order, up to and
    including the first one pandas refuses. *)
Lemma to_excel_each_handed sheets :
  forall writer,
    path (snd (to_excel_each writer sheets)) = path writer /\
    exists part,
      handed (snd (to_excel_each writer sheets)) = handed writer ++ part /\
      starts_with sheets part /\
      (forall u, fst (to_excel_each writer sheets) = Returns u ->
                 part = sheets /\
                 forall before sheet after,
                   sheets = before ++ sheet :: after ->
                   to_excel (Writer (path writer) (handed writer ++ before)) sheet
                   = Returns tt).
Proof.
  induction sheets as [| sheet sheets IH]; intros writer; cbn [to_excel_each].
  - split; [reflexivity |]. exists []. rewrite app_nil_r.
    split; [reflexivity |]. split; [exists []; reflexivity |].
    intros u _. split; [reflexivity |].
    intros [| ? ?] ? ? E; discriminate E.
  - destruct (to_excel writer sheet) as [[] | e] eqn:Hcall.
    + destruct (IH (Writer (path writer) (handed writer ++ [sheet])))
        as (Hpath & part & Hhanded & [later Hpart] & Hall).
      cbn [path handed] in Hpath, Hhanded, Hall.
      split; [exact Hpath |]. exists (sheet :: part).
      rewrite Hhanded, <- app_assoc.
      split; [reflexivity |].
      split; [exists later; rewrite Hpart; reflexivity |].
      intros u Hu. destruct (Hall u Hu) as [-> Hrest].
      split; [reflexivity |].
      intros [| first before] s after E; cbn [app] in E; injection E as <- E.
      * rewrite app_nil_r. destruct writer. exact Hcall.
      * subst sheets. specialize (Hrest before s after eq_refl).
        rewrite <- app_assoc in Hrest. exact Hrest.
    + cbn [fst snd path handed]. split; [reflexivity |]. exists [sheet].
      split; [reflexivity |]. split; [exists sheets; reflexivity |].
      intros u E. discriminate E.
Qed.

(** [write]: nothing is sent or echoed to standard error, at most one
    writer is opened, on the path given, and it is handed the sheets in
    order, all of them when the call returns. *)
Lemma write_spec xlsx_file sheets w :
  let out := write xlsx_file sheets w in
  pending (snd out) = pending w /\
  http (snd out) = http w /\
  stderr (snd out) = stderr w /\
  (exists r, fst out = Some r) /\
  (files (snd out) = files w \/
   exists part,
     files (snd out) = files w ++ [Writer xlsx_file part] /\
     starts_with sheets part) /\
  (fst out = Some (Returns tt) ->
   files (snd out) = files w ++ [Writer xlsx_file sheets] /\
   accepted xlsx_file sheets).
Proof.
  cbv zeta. unfold write, bind, write_xlsx.
  cbn [click_echo pending http stdout stderr files].
  destruct (ExcelWriter xlsx_file) as [[] | e] eqn:Hopen; cbn [fst snd].
  - destruct (to_excel_each_handed sheets (Writer xlsx_file []))
      as (Hpath & part & Hhanded & Hpart & Hall).
    cbn [path handed app] in Hpath, Hhanded, Hall.
    destruct (to_excel_each (Writer xlsx_file []) sheets) as [body writer].
    cbn [fst snd] in *. destruct writer as [p h]. cbn [path handed] in *.
    subst p h. cbn [pending http stderr files].
    repeat (split; [reflexivity |]).
    split; [eexists; reflexivity |].
    split; [right; exists part; auto |].
    destruct (__exit__ (Writer xlsx_file part)) as [[] | e] eqn:Hclose;
      [| discriminate].
    intros E. injection E as E. destruct (Hall tt E) as [-> Hcalls].
    split; [reflexivity |]. split; [exact Hopen |]. split; [exact Hcalls | exact Hclose].
  - repeat (split; [reflexivity |]).
    split; [eexists; reflexivity |].
    split; [left; reflexivity | discriminate].
Qed.

(** When pandas accepts the sheets, [write] returns. *)
Lemma write_accepted xlsx_file sheets w :
  accepted xlsx_file sheets ->
  fst (write xlsx_file sheets w) = Some (Returns tt).
Proof.
  intros (Hopen & Hcalls & Hclose).
  assert (Hloop : forall rest done,
             sheets = done ++ rest ->
             to_excel_each (Writer xlsx_file done) rest
             = (Returns tt, Writer xlsx_file sheets)).
  { induction rest as [| sheet rest IH]; intros done E; cbn [to_excel_each].
    - rewrite app_nil_r in E. subst. reflexivity.
    - cbn [path handed]. rewrite (Hcalls _ _ _ E).
      apply IH. rewrite <- app_assoc. exact E. }
  unfold write, bind, write_xlsx. cbn [click_echo].
  rewrite Hopen, (Hloop sheets [] eq_refl). cbn [fst snd].
  rewrite Hclose. reflexivity.
Qed.

(** [main] echoes nothing to standard error, and a failed request keeps it
    from opening a writer. *)
Lemma main_aborts xlsx_file group_id api_token w :
  exists new,
    http (snd (main xlsx_file group_id api_token w)) = http w ++ new /\
    stderr (snd (main xlsx_file group_id api_token w)) = stderr w /\
    (forall before x after,
        new = before ++ x :: after -> failed x ->
        after = [] /\
        fst (main xlsx_file group_id api_token w) = Some (Raises FetchException) /\
        files (snd (main xlsx_file group_id api_token w)) = files w).
Proof.
  rewrite main_run_write. unfold bind.
  destruct (quiet_run group_id api_token w) as (new & Hh & Hs & Hf & Hx).
  destruct (run group_id api_token w) as [[[sheets | e] |] w1]; cbn [fst snd] in *;
    exists new.
  - destruct (write_spec xlsx_file sheets w1) as (_ & Hh' & Hs' & _).
    rewrite Hh', Hs'. split; [assumption | split; [assumption |]].
    intros before x after E' Hfailed.
    destruct (Hx _ _ _ E' Hfailed) as [_ Hout]. discriminate Hout.
  - split; [assumption | split; [assumption |]].
    intros before x after E' Hfailed.
    destruct (Hx _ _ _ E' Hfailed) as [Hafter Hout]. injection Hout as ->.
    split; [exact Hafter | split; [reflexivity | exact Hf]].
  - split; [assumption | split; [assumption |]].
    intros before x after E' Hfailed.
    destruct (Hx _ _ _ E' Hfailed) as [_ Hout]. discriminate Hout.
Qed.
End Halves.

(** ** The course of a fetch does not depend on the endpoint *)

Lemma dict_find_app key items more :
  dict_find key (items ++ more) =
  match dict_find key items with
  | Some v => Some v
  | None => dict_find key more
  end.
Proof.
  induction items as [| [k v] items IH]; [reflexivity |].
  cbn [app dict_find]. destruct (String.eqb key k); auto.
Qed.

Lemma progression_plain endpoint fixed token limit offset answer :
  plain fixed ->
  progression
    (Request endpoint (fixed ++ [("limit", PyInt limit); ("offset", PyInt offset)])
       [("Authorization", Format "Bearer {}" [token])], answer)
  = (Some (PyInt limit), Some (PyInt offset), answer).
Proof.
  intros [Hl Ho]. unfold progression. cbn [fst snd params].
  rewrite !dict_find_app, Hl, Ho. reflexivity.
Qed.

Lemma fetchAll_loop_course fuel e1 fixed1 t1 e2 fixed2 t2 :
  plain fixed1 -> plain fixed2 ->
  forall found1 found2 records offset limit w1 w2,
    same_course w1 w2 ->
    fst (fetchAll_loop fuel e1 fixed1 t1 found1 records offset limit w1)
    = fst (fetchAll_loop fuel e2 fixed2 t2 found2 records offset limit w2) /\
    same_course
      (snd (fetchAll_loop fuel e1 fixed1 t1 found1 records offset limit w1))
      (snd (fetchAll_loop fuel e2 fixed2 t2 found2 records offset limit w2)).
Proof.
  intros Hp1 Hp2.
  induction fuel as [| fuel IH]; intros found1 found2 records offset limit w1 w2 Hc.
  - split; [reflexivity | exact Hc].
  - destruct w1 as [pend1 h1 so1 se1 fi1], w2 as [pend2 h2 so2 se2 fi2].
    destruct Hc as (Hpend & Hh & Hso & Hse & Hfi).
    cbn [pending http stdout stderr files] in *. subst pend2 so2 se2 fi2.
    rewrite !fetchAll_loop_unfold. cbv zeta.
    assert (Hlog : forall answer,
               map progression
                 (h1 ++ [(Request e1 (fixed1 ++ [("limit", PyInt limit);
                                                 ("offset", PyInt offset)])
                            [("Authorization", Format "Bearer {}" [t1])], answer)])
               = map progression
                   (h2 ++ [(Request e2 (fixed2 ++ [("limit", PyInt limit);
                                                   ("offset", PyInt offset)])
                              [("Authorization", Format "Bearer {}" [t2])], answer)])).
    { intros answer. rewrite !map_app, Hh. cbn [map].
      rewrite !progression_plain by assumption. reflexivity. }
    assert (Hw : forall answer rest,
               same_course
                 (World rest
                    (h1 ++ [(Request e1 (fixed1 ++ [("limit", PyInt limit);
                                                    ("offset", PyInt offset)])
                               [("Authorization", Format "Bearer {}" [t1])], answer)])
                    (so1 ++ [(Lit ".", false)]) se1 fi1)
                 (World rest
                    (h2 ++ [(Request e2 (fixed2 ++ [("limit", PyInt limit);
                                                    ("offset", PyInt offset)])
                               [("Authorization", Format "Bearer {}" [t2])], answer)])
                    (so1 ++ [(Lit ".", false)]) se1 fi1)).
    { intros answer rest. repeat split; auto. cbn [http]. apply Hlog. }
    destruct pend1 as [| r rest]; [split; [reflexivity | apply Hw] |].
    destruct (negb (status_code r =? 200)); [split; [reflexivity | apply Hw] |].
    destruct (loads_text r) as [page | e]; [| split; [reflexivity | apply Hw]].
    destruct (len page) as [count | e]; [| split; [reflexivity | apply Hw]].
    destruct (elements page) as [more | e]; [| split; [reflexivity | apply Hw]].
    destruct ((count =? 0) || (count <? limit)); [split; [reflexivity | apply Hw] |].
    apply IH. apply Hw.
Qed.

Lemma fetchAll_course e1 fixed1 t1 e2 fixed2 t2 w1 w2 :
  plain fixed1 -> plain fixed2 -> same_course w1 w2 ->
  fst (fetchAll e1 fixed1 t1 w1) = fst (fetchAll e2 fixed2 t2 w2) /\
  same_course (snd (fetchAll e1 fixed1 t1 w1)) (snd (fetchAll e2 fixed2 t2 w2)).
Proof.
  intros Hp1 Hp2 Hc. unfold fetchAll, bind.
  assert (Hpend : pending w1 = pending w2) by apply Hc.
  rewrite <- Hpend.
  destruct (fetchAll_loop_course (S (List.length (pending w1)))
              e1 fixed1 t1 e2 fixed2 t2 Hp1 Hp2 false false [] 0 100 w1 w2 Hc)
    as [Hout Hw].
  destruct (fetchAll_loop _ e1 _ _ _ _ _ _ w1) as [o1 w1'].
  destruct (fetchAll_loop _ e2 _ _ _ _ _ _ w2) as [o2 w2'].
  cbn [fst snd] in Hout, Hw. subst o2.
  destruct o1 as [[[found records] | e] |]; cbn [fst snd]; auto.
  destruct found; cbn; [| auto].
  split; [reflexivity |].
  destruct Hw as (Ha & Hb & Hc' & Hd & He). repeat split; cbn; congruence.
Qed.

(** ** Successful runs *)

Lemma bind_lift_returns {A B} (r : result A) (a : A) (k : A -> M B) w :
  r = Returns a -> bind (lift r) k w = k a w.
Proof. intros ->. reflexivity. Qed.

Lemma getitem_found items key v :
  dict_find key items = Some v -> getitem (PyDict items) key = Returns v.
Proof. intros E. cbn [getitem]. rewrite E. reflexivity. Qed.

Section Runs.
Context {P : Pendulum} {Q : Pandas}.

Lemma extract_all_present messages outs :
  Forall2 (fun m o => extract_measurement m = Returns o) messages outs ->
  forall measurements,
    extract_all messages measurements = Returns (measurements ++ present outs).
Proof.
  induction 1 as [| m o messages outs Hm Hrest IH]; intros measurements.
  - cbn. rewrite app_nil_r. reflexivity.
  - cbn [extract_all]. rewrite Hm. cbn [rbind].
    destruct o as [x |]; rewrite IH; cbn [present]; [| reflexivity].
    rewrite <- app_assoc. reflexivity.
Qed.

Lemma main_devices_run runs :
  Forall device_run_ok runs ->
  forall sheets0 rest w,
    pending w = flat_map (fun x => map ok_page (msg_pages x)) runs ++ rest ->
    exists w',
      main_devices (map (fun x => PyDict (dev_items x)) runs) sheets0 w
      = (Some (Returns (sheets0 ++ map sheet_of runs)), w') /\
      pending w' = rest /\
      http w' = http w ++ flat_map message_exchanges runs /\
      stderr w' = stderr w /\
      files w' = files w.
Proof.
  induction 1 as [| x runs Hx Hruns IH]; intros sheets0 rest w Hpend.
  - exists w. cbn in *. rewrite !app_nil_r. auto.
  - destruct Hx as (Hid & Hname & Hgroup & Htoken & Hpages & Hext).
    destruct w as [pend h so se fi]. cbn [pending] in Hpend.
    cbn [flat_map] in Hpend. rewrite <- app_assoc in Hpend. subst pend.
    cbn [map main_devices].
    rewrite (bind_lift_returns _ _ _ _ (getitem_found _ _ _ Hid)).
    rewrite (bind_lift_returns _ _ _ _ (getitem_found _ _ _ Hname)).
    unfold bind at 1. cbn [click_echo pending http stdout stderr files].
    rewrite (bind_lift_returns _ _ _ _ (getitem_found _ _ _ Hgroup)).
    rewrite (bind_lift_returns _ _ _ _ (getitem_found _ _ _ Hid)).
    rewrite (bind_lift_returns _ _ _ _ (getitem_found _ _ _ Htoken)).
    unfold bind at 1. rewrite MessageFetcher_fetch_generic.
    cbn [MessageFetcher._group_id MessageFetcher._device_id
         MessageFetcher._api_token].
    erewrite fetchAll_paging by (try eassumption; reflexivity).
    cbn [pending http stdout stderr files].
    rewrite (bind_lift_returns _ _ _ _ (extract_all_present _ _ Hext [])).
    rewrite (bind_lift_returns _ _ _ _ (getitem_found _ _ _ Hid)).
    rewrite (bind_lift_returns _ (PyStr (substring 0 30 (dev_id x))))
      by reflexivity.
    match goal with
    | |- context [main_devices _ ?s ?w1] =>
        destruct (IH s rest w1 eq_refl) as (w' & Hrun & Hp' & Hh' & Hs' & Hf')
    end.
    cbn [http stderr files] in Hh', Hs', Hf'.
    exists w'. rewrite Hrun, Hh'. unfold message_exchanges at 2.
    cbn [app flat_map map]. rewrite <- !app_assoc.
    repeat split; auto.
Qed.

(** A run that is served builds one sheet per device and hands them to
    the writer. *)
Lemma main_served xlsx_file group_id api_token device_pages runs rest w :
  served device_pages runs rest w ->
  exists w',
    run group_id api_token w = (Some (Returns (map sheet_of runs)), w') /\
    main xlsx_file group_id api_token w
    = write xlsx_file (map sheet_of runs) w' /\
    pending w' = rest /\
    http w' = http w
              ++ exchanges devices_url [("group_id", PyStr group_id)]
                   (PyStr api_token) 0 device_pages
              ++ flat_map message_exchanges runs /\
    stderr w' = stderr w /\
    files w' = files w.
Proof.
  intros (Hpages & Hdevices & Hruns & Hpend).
  assert (Hrun : exists w',
             run group_id api_token w = (Some (Returns (map sheet_of runs)), w') /\
             pending w' = rest /\
             http w' = http w
                       ++ exchanges devices_url [("group_id", PyStr group_id)]
                            (PyStr api_token) 0 device_pages
                       ++ flat_map message_exchanges runs /\
             stderr w' = stderr w /\
             files w' = files w).
  { destruct w as [pend h so se fi]. cbn [pending] in Hpend. subst pend.
    unfold run.
    unfold bind at 1. cbn [click_echo pending http stdout stderr files].
    unfold bind at 1. rewrite DeviceFetcher_fetch_generic.
    cbn [DeviceFetcher._group_id DeviceFetcher._api_token].
    erewrite fetchAll_paging by (try eassumption; reflexivity).
    cbn [pending http stdout stderr files]. rewrite Hdevices.
    match goal with
    | |- context [main_devices _ [] ?w1] =>
        destruct (main_devices_run runs Hruns [] rest w1 eq_refl)
          as (w' & Hrun & Hp' & Hh' & Hs' & Hf')
    end.
    exists w'. cbn [app http stderr files] in *.
    rewrite Hrun, Hh', <- app_assoc. auto. }
  destruct Hrun as (w' & Hrun & Hfacts).
  exists w'. split; [exact Hrun |]. split; [| exact Hfacts].
  rewrite main_run_write. unfold bind at 1. rewrite Hrun. reflexivity.
Qed.
End Runs.

(** ** The claims about the fetchers *)

Lemma exchanges_length endpoint fixed token offset pages :
  List.length (exchanges endpoint fixed token offset pages) = List.length pages.
Proof.
  revert offset. induction pages as [| page pages IH]; intros offset; cbn; auto.
Qed.

Lemma DeviceFetcher_fetch_paging self pages rest w :
  paging pages ->
  pending w = map ok_page pages ++ rest ->
  fst (DeviceFetcher.fetch self w) = Some (Returns (List.concat pages)) /\
  pending (snd (DeviceFetcher.fetch self w)) = rest /\
  http (snd (DeviceFetcher.fetch self w))
  = http w ++ exchanges devices_url [("group_id", DeviceFetcher._group_id self)]
                (DeviceFetcher._api_token self) 0 pages.
Proof.
  intros Hp Hw. rewrite DeviceFetcher_fetch_generic.
  rewrite (fetchAll_paging _ _ _ pages rest w Hp Hw). auto.
Qed.

(** C3.  [DeviceFetcher.fetch] on a listing served in pages, all of at
    least 100 items but the last, which has fewer (possibly none): it
    returns the pages concatenated in the order received, sends exactly one
    request per page, each at the offset of the items received so far, and
    leaves every later answer unasked.  So pages of 100, 100 and 37 items
    give the 237 records after three requests at offsets 0, 100 and 200, and
    an empty first page gives no record after one request. *)
Theorem DeviceFetcher_fetch_pagination (self : DeviceFetcher.t) (w : world) :
  (forall pages rest,
      paging pages ->
      pending w = map ok_page pages ++ rest ->
      exists new,
        fst (DeviceFetcher.fetch self w) = Some (Returns (List.concat pages)) /\
        pending (snd (DeviceFetcher.fetch self w)) = rest /\
        http (snd (DeviceFetcher.fetch self w)) = http w ++ new /\
        new = exchanges devices_url [("group_id", DeviceFetcher._group_id self)]
                (DeviceFetcher._api_token self) 0 pages /\
        List.length new = List.length pages)
  /\
  (forall p1 p2 p3 rest,
      List.length p1 = 100%nat ->
      List.length p2 = 100%nat ->
      List.length p3 = 37%nat ->
      pending w = ok_page p1 :: ok_page p2 :: ok_page p3 :: rest ->
      exists new,
        fst (DeviceFetcher.fetch self w) = Some (Returns (p1 ++ p2 ++ p3)) /\
        List.length (p1 ++ p2 ++ p3) = 237%nat /\
        pending (snd (DeviceFetcher.fetch self w)) = rest /\
        http (snd (DeviceFetcher.fetch self w)) = http w ++ new /\
        List.length new = 3%nat /\
        offsets new = [Some (PyInt 0); Some (PyInt 100); Some (PyInt 200)])
  /\
  (forall rest,
      pending w = ok_page [] :: rest ->
      exists new,
        fst (DeviceFetcher.fetch self w) = Some (Returns []) /\
        pending (snd (DeviceFetcher.fetch self w)) = rest /\
        http (snd (DeviceFetcher.fetch self w)) = http w ++ new /\
        List.length new = 1%nat).
Proof.
  split; [| split].
  - intros pages rest Hp Hw.
    destruct (DeviceFetcher_fetch_paging self pages rest w Hp Hw) as (H1 & H2 & H3).
    eexists. repeat split; try eassumption. apply exchanges_length.
  - intros p1 p2 p3 rest L1 L2 L3 Hw.
    assert (Hp : paging [p1; p2; p3]).
    { apply paging_more; [lia |]. apply paging_more; [lia |].
      apply paging_last. lia. }
    destruct (DeviceFetcher_fetch_paging self [p1; p2; p3] rest w Hp Hw)
      as (H1 & H2 & H3).
    eexists. split; [| split; [| split; [exact H2 | split; [exact H3 | split]]]].
    + rewrite H1. cbn [List.concat]. rewrite app_nil_r. reflexivity.
    + rewrite !length_app. lia.
    + reflexivity.
    + cbn [exchanges offsets map]. rewrite L1, L2. reflexivity.
  - intros rest Hw.
    assert (Hp : paging [[]]) by (apply paging_last; cbn; lia).
    destruct (DeviceFetcher_fetch_paging self [[]] rest w Hp Hw) as (H1 & H2 & H3).
    eexists. repeat split; try eassumption. reflexivity.
Qed.

(** Pages of 100, 100 and 37 numbered records, then an answer that must
    stay unasked. *)
Lemma DeviceFetcher_fetch_pagination_witness :
  let self := DeviceFetcher.__init__ (PyStr "group") (PyStr "token") in
  let w := fresh_world [ok_page (numbered 0 100); ok_page (numbered 100 100);
                        ok_page (numbered 200 37); ok_page (numbered 237 5)] in
  fst (DeviceFetcher.fetch self w) = Some (Returns (numbered 0 237)) /\
  pending (snd (DeviceFetcher.fetch self w)) = [ok_page (numbered 237 5)] /\
  offsets (http (snd (DeviceFetcher.fetch self w)))
  = [Some (PyInt 0); Some (PyInt 100); Some (PyInt 200)].
Proof.
  intros self w.
  destruct (proj1 (proj2 (DeviceFetcher_fetch_pagination self w))
              (numbered 0 100) (numbered 100 100) (numbered 200 37)
              [ok_page (numbered 237 5)])
    as (new & H1 & H2 & H3 & H4 & H5 & H6); try reflexivity.
  rewrite H1, H3, H4. repeat split. exact H6.
Defined.

(** C8.  The two fetch loops are the one generic paginated fetcher at two
    endpoints; started where the same answers are pending they end with the
    same outcome (the same records, or the same exception), leave the same
    answers pending and send requests with the same limits and offsets. *)
Theorem fetchers_same_pagination (device : DeviceFetcher.t)
    (message : MessageFetcher.t) (w1 w2 : world) :
  same_course w1 w2 ->
  DeviceFetcher.fetch device w1
  = fetchAll devices_url [("group_id", DeviceFetcher._group_id device)]
      (DeviceFetcher._api_token device) w1 /\
  MessageFetcher.fetch message w2
  = fetchAll messages_url
      [("group_id", MessageFetcher._group_id message);
       ("device_id", MessageFetcher._device_id message)]
      (MessageFetcher._api_token message) w2 /\
  fst (DeviceFetcher.fetch device w1) = fst (MessageFetcher.fetch message w2) /\
  same_course (snd (DeviceFetcher.fetch device w1))
    (snd (MessageFetcher.fetch message w2)).
Proof.
  intros Hc.
  split; [apply DeviceFetcher_fetch_generic |].
  split; [apply MessageFetcher_fetch_generic |].
  rewrite DeviceFetcher_fetch_generic, MessageFetcher_fetch_generic.
  apply fetchAll_course; [split; reflexivity | split; reflexivity | exact Hc].
Qed.

(** Both fetchers on the same three pages: the same 237 records and the
    same offsets. *)
Lemma fetchers_same_pagination_witness :
  let device := DeviceFetcher.__init__ (PyStr "group") (PyStr "token") in
  let message :=
    MessageFetcher.__init__ (PyStr "group") (PyStr "device") (PyStr "other") in
  let w := fresh_world [ok_page (numbered 0 100); ok_page (numbered 100 100);
                        ok_page (numbered 200 37)] in
  fst (DeviceFetcher.fetch device w) = fst (MessageFetcher.fetch message w) /\
  same_course (snd (DeviceFetcher.fetch device w))
    (snd (MessageFetcher.fetch message w)).
Proof.
  intros device message w.
  apply (fetchers_same_pagination device message w w).
  repeat split.
Defined.

(** ** The claims about failures *)

Lemma quiet_aborts {A} (m : M A) w before x after :
  quiet m ->
  http (snd (m w)) = http w ++ before ++ x :: after ->
  failed x ->
  after = [] /\
  fst (m w) = Some (Raises FetchException) /\
  stderr (snd (m w)) = stderr w /\
  files (snd (m w)) = files w.
Proof.
  intros Hq Hh Hx. destruct (Hq w) as (new & Hh' & Hs & Hf & Habort).
  rewrite Hh in Hh'. apply app_inv_head in Hh'.
  destruct (Habort _ _ _ (eq_sym Hh') Hx). auto.
Qed.

(** C4.  When a request of a fetcher, or of a whole run, is answered with
    a status other than 200, it is the last request sent, the fetch ends in
    the single exception [FetchException] (an outcome that carries no
    record), and so does [main], without any workbook being saved. *)
Theorem fetch_failure_aborts (P : Pendulum) (Q : Pandas) (xlsx_file group_id api_token : string)
    (device : DeviceFetcher.t) (message : MessageFetcher.t) (w : world)
    (before : list (request * option response)) (x : request * option response)
    (after : list (request * option response)) :
  failed x ->
  (http (snd (DeviceFetcher.fetch device w)) = http w ++ before ++ x :: after ->
   after = [] /\
   fst (DeviceFetcher.fetch device w) = Some (Raises FetchException) /\
   files (snd (DeviceFetcher.fetch device w)) = files w)
  /\
  (http (snd (MessageFetcher.fetch message w)) = http w ++ before ++ x :: after ->
   after = [] /\
   fst (MessageFetcher.fetch message w) = Some (Raises FetchException) /\
   files (snd (MessageFetcher.fetch message w)) = files w)
  /\
  (http (snd (main xlsx_file group_id api_token w)) = http w ++ before ++ x :: after ->
   after = [] /\
   fst (main xlsx_file group_id api_token w) = Some (Raises FetchException) /\
   files (snd (main xlsx_file group_id api_token w)) = files w).
Proof.
  intros Hx. split; [| split]; intros Hh.
  - destruct (quiet_aborts _ _ _ _ _ (quiet_DeviceFetcher device) Hh Hx)
      as (H1 & H2 & _ & H3). auto.
  - destruct (quiet_aborts _ _ _ _ _ (quiet_MessageFetcher message) Hh Hx)
      as (H1 & H2 & _ & H3). auto.
  - destruct (main_aborts xlsx_file group_id api_token w) as (new & Hh' & _ & Habort).
    rewrite Hh in Hh'. apply app_inv_head in Hh'.
    apply (Habort _ _ _ (eq_sym Hh') Hx).
Qed.

(** One device is listed, then the request for its messages gets status
    500: [main] ends in [FetchException] after these two requests and no
    workbook is saved. *)
Lemma fetch_failure_aborts_witness :
  fst (@main stub_pendulum stub_pandas "out.xlsx" "group" "token" failing_world)
  = Some (Raises FetchException) /\
  List.length (http (snd (@main stub_pendulum stub_pandas "out.xlsx" "group" "token"
                            failing_world))) = 2%nat /\
  files (snd (@main stub_pendulum stub_pandas "out.xlsx" "group" "token" failing_world)) = [].
Proof.
  pose (log := http (snd (@main stub_pendulum stub_pandas "out.xlsx" "group" "token"
                            failing_world))).
  destruct (proj2 (proj2 (fetch_failure_aborts stub_pendulum stub_pandas
                            "out.xlsx" "group" "token"
                            (DeviceFetcher.__init__ PyNone PyNone)
                            (MessageFetcher.__init__ PyNone PyNone PyNone)
                            failing_world
                            (firstn 1 log) (nth 1 log (Request "" [] [], None))
                            (skipn 2 log) ltac:(vm_compute; discriminate)))
              eq_refl) as (_ & Hout & Hfiles).
  split; [exact Hout | split; [reflexivity | exact Hfiles]].
Defined.

Section Script.
Context {P : Pendulum} {Q : Pandas}.

Lemma script_after_main xlsx_file group_id api_token w :
  http (snd (script xlsx_file group_id api_token w))
  = http (snd (main xlsx_file group_id api_token w)).
Proof.
  unfold script, click_main.
  destruct (main xlsx_file group_id api_token w) as [[[[] | e] |] w1];
    try reflexivity.
  destruct e; reflexivity.
Qed.

Lemma script_on_FetchException xlsx_file group_id api_token w :
  fst (main xlsx_file group_id api_token w) = Some (Raises FetchException) ->
  script xlsx_file group_id api_token w
  = (Some 0,
     let w1 := snd (main xlsx_file group_id api_token w) in
     World (pending w1) (http w1) (stdout w1)
       (stderr w1
        ++ [(Lit "Request to REST API failed. Please, check your parameters!",
             true)])
       (files w1)).
Proof.
  unfold script, click_main.
  destruct (main xlsx_file group_id api_token w) as [out w1]. cbn [fst snd].
  intros ->. reflexivity.
Qed.
End Script.

(** C5 (amended).  When a request of the run is answered with a status
    other than 200, the script echoes the one fixed message to standard
    error, saves no workbook, and the process ends with exit status 0: the
    handler of [FetchException] returns normally. *)
Theorem script_fetch_failure (P : Pendulum) (Q : Pandas) (xlsx_file group_id api_token : string)
    (w : world) (before : list (request * option response))
    (x : request * option response) (after : list (request * option response)) :
  http (snd (script xlsx_file group_id api_token w)) = http w ++ before ++ x :: after ->
  failed x ->
  fst (script xlsx_file group_id api_token w) = Some 0 /\
  stderr (snd (script xlsx_file group_id api_token w))
  = stderr w
    ++ [(Lit "Request to REST API failed. Please, check your parameters!", true)] /\
  files (snd (script xlsx_file group_id api_token w)) = files w.
Proof.
  intros Hh Hx. rewrite script_after_main in Hh.
  destruct (main_aborts xlsx_file group_id api_token w) as (new & Hh' & Hs & Habort).
  rewrite Hh in Hh'. apply app_inv_head in Hh'.
  destruct (Habort _ _ _ (eq_sym Hh') Hx) as (_ & Hout & Hf).
  rewrite (script_on_FetchException _ _ _ _ Hout).
  cbn [fst snd stderr files]. rewrite Hs, Hf. auto.
Qed.

Lemma script_fetch_failure_witness :
  fst (@script stub_pendulum stub_pandas "out.xlsx" "group" "token" failing_world) = Some 0 /\
  stderr (snd (@script stub_pendulum stub_pandas "out.xlsx" "group" "token" failing_world))
  = [(Lit "Request to REST API failed. Please, check your parameters!", true)] /\
  files (snd (@script stub_pendulum stub_pandas "out.xlsx" "group" "token" failing_world)) = [].
Proof.
  pose (log := http (snd (@script stub_pendulum stub_pandas "out.xlsx" "group" "token"
                            failing_world))).
  apply (script_fetch_failure stub_pendulum stub_pandas "out.xlsx" "group" "token"
           failing_world (firstn 1 log) (nth 1 log (Request "" [] [], None))
           (skipn 2 log)).
  - reflexivity.
  - vm_compute. discriminate.
Defined.

(** C5, counterexample.  The very first request is answered with status
    500; the fixed message is printed and the exit status is 0, not a
    non-zero one. *)
Lemma script_fetch_failure_counterexample :
  let w := fresh_world [Response 500 (Raises ValueError)] in
  Exists failed (http (snd (@script stub_pendulum stub_pandas "out.xlsx" "group" "token" w))) /\
  fst (@main stub_pendulum stub_pandas "out.xlsx" "group" "token" w)
  = Some (Raises FetchException) /\
  @script stub_pendulum stub_pandas "out.xlsx" "group" "token" w
  = (Some 0,
     World []
       [(Request devices_url
           [("group_id", PyStr "group"); ("limit", PyInt 100); ("offset", PyInt 0)]
           [("Authorization", Format "Bearer {}" [PyStr "token"])],
         Some (Response 500 (Raises ValueError)))]
       [(Format "Fetching data for group: {}..." [PyStr "group"], true);
        (Lit ".", false)]
       [(Lit "Request to REST API failed. Please, check your parameters!", true)]
       []).
Proof.
  cbv zeta. split; [| split; reflexivity].
  apply Exists_cons_hd. unfold failed. cbn. discriminate.
Qed.

(** ** The claims about the orchestrator *)

(** The sample world holds exactly the answers the two sample devices need. *)
Lemma sample_world_served :
  @served stub_pendulum
    [[PyDict (dev_items sample_run_a); PyDict (dev_items sample_run_b)]]
    [sample_run_a; sample_run_b] [] sample_world.
Proof.
  split; [apply paging_last; cbn; lia |].
  split; [reflexivity |].
  split; [| reflexivity].
  repeat constructor; try (cbn; lia); vm_compute; reflexivity.
Defined.

(** The world of the scenario holds exactly the answers its two devices
    need. *)
Lemma scenario_world_served :
  @served stub_pendulum
    [[PyDict (dev_items scenario_a); PyDict (dev_items scenario_b)]]
    [scenario_a; scenario_b] [] scenario_world.
Proof.
  split; [apply paging_last; cbn; lia |].
  split; [reflexivity |].
  split; [| reflexivity].
  repeat constructor; try (cbn; lia); vm_compute; reflexivity.
Defined.

(** C6.  In a run whose requests all succeed and whose messages all pass
    the extractor without an exception, the orchestrator builds one sheet per
    device, in the order of the device list; the rows of a sheet are the
    records the extractor returned for the messages of that device, in
    message order, the messages it returned [None] for being left out.
    [main] passes this list on to the writer as it is: a writer that is
    opened is handed these sheets in order, up to the first one pandas
    refuses, and when pandas accepts them all [main] returns and the writer
    was handed exactly them.  With two devices, the first having three
    messages of which two give a record, the second having none: two sheets,
    of 2 and 0 rows. *)
Theorem main_one_sheet_per_device (P : Pendulum) (Q : Pandas)
    (xlsx_file group_id api_token : string) (device_pages : list (list value))
    (runs : list device_run) (rest : list response) (w : world) :
  served device_pages runs rest w ->
  fst (run group_id api_token w) = Some (Returns (map sheet_of runs)) /\
  main xlsx_file group_id api_token w
  = write xlsx_file (map sheet_of runs) (snd (run group_id api_token w)) /\
  List.length (map sheet_of runs) = List.length runs /\
  Forall (fun x =>
            data (sheet_of x) = present (extracted x) /\
            Forall2 (fun m o => extract_measurement m = Returns o)
              (List.concat (msg_pages x)) (extracted x)) runs /\
  (files (snd (main xlsx_file group_id api_token w)) = files w \/
   exists part,
     files (snd (main xlsx_file group_id api_token w))
     = files w ++ [Writer xlsx_file part] /\
     starts_with (map sheet_of runs) part) /\
  (accepted xlsx_file (map sheet_of runs) ->
   fst (main xlsx_file group_id api_token w) = Some (Returns tt) /\
   files (snd (main xlsx_file group_id api_token w))
   = files w ++ [Writer xlsx_file (map sheet_of runs)]) /\
  (forall a b,
      runs = [a; b] ->
      List.length (List.concat (msg_pages a)) = 3%nat ->
      List.length (present (extracted a)) = 2%nat ->
      List.concat (msg_pages b) = [] ->
      exists sheet_a sheet_b,
        fst (run group_id api_token w) = Some (Returns [sheet_a; sheet_b]) /\
        List.length (data sheet_a) = 2%nat /\
        List.length (data sheet_b) = 0%nat).
Proof.
  intros Hs.
  destruct (main_served xlsx_file group_id api_token _ _ _ _ Hs)
    as (w' & Hrun & Hmain & _ & _ & _ & Hfiles).
  rewrite Hmain, Hrun. cbn [fst snd].
  destruct Hs as (_ & _ & Hruns & _).
  destruct (write_spec xlsx_file (map sheet_of runs) w')
    as (_ & _ & _ & _ & Hpart & Hall).
  rewrite Hfiles in Hpart, Hall.
  split; [reflexivity |]. split; [reflexivity |].
  split; [apply length_map |]. split; [| split; [exact Hpart | split]].
  - apply Forall_forall. intros x Hx.
    rewrite Forall_forall in Hruns. specialize (Hruns x Hx).
    split; [reflexivity | apply Hruns].
  - intros Hacc. split; [apply write_accepted; exact Hacc |].
    apply Hall, write_accepted, Hacc.
  - intros a b -> La Ha Lb.
    exists (sheet_of a), (sheet_of b). split; [reflexivity |].
    split; [exact Ha |].
    inversion Hruns as [| ? ? _ Hb]; subst.
    inversion Hb as [| ? ? Hb' _]; subst.
    destruct Hb' as (_ & _ & _ & _ & _ & Hext).
    rewrite Lb in Hext. unfold sheet_of. cbn [data].
    destruct (extracted b); [reflexivity | inversion Hext].
Qed.

(** The scenario, with two devices called [dev-a] and [dev-b]: two sheets
    of 2 and 0 rows. *)
Lemma main_one_sheet_per_device_witness :
  exists sheet_a sheet_b,
    fst (@run stub_pendulum "group" "token" scenario_world)
    = Some (Returns [sheet_a; sheet_b]) /\
    List.length (data sheet_a) = 2%nat /\
    List.length (data sheet_b) = 0%nat.
Proof.
  apply (proj2 (proj2 (proj2 (proj2 (proj2 (proj2
           (main_one_sheet_per_device stub_pendulum stub_pandas
              "out.xlsx" "group" "token"
              _ _ _ _ scenario_world_served))))))
           scenario_a scenario_b); reflexivity.
Defined.

Lemma substring_length n s :
  String.length (substring 0 n s) = Nat.min n (String.length s).
Proof.
  revert s. induction n as [| n IH]; intros [| c s]; cbn; auto.
Qed.

Lemma substring_prefix n s : prefix (substring 0 n s) s = true.
Proof.
  revert s. induction n as [| n IH]; intros [| c s]; cbn; auto.
  rewrite IH. destruct (Ascii.ascii_dec c c); congruence.
Qed.

Lemma substring_short n s :
  (String.length s <= n)%nat -> substring 0 n s = s.
Proof.
  revert s. induction n as [| n IH]; intros [| c s]; cbn; auto; try lia.
  intros H. rewrite IH by lia. reflexivity.
Qed.

(** C7.  In such a run the names of the sheets the orchestrator builds
    are, device by device, the first 30 characters of the device id: a
    prefix of the id, of length [min 30 (length id)], the id itself when it
    has at most 30 characters.  The list of names is that and nothing else,
    so ids that agree on their first 30 characters, or are empty, give
    equal, or empty, names; and the sheets go to the writer under these
    names, in this order, whatever pandas then makes of them. *)
Theorem sheet_names_truncated (P : Pendulum) (Q : Pandas)
    (xlsx_file group_id api_token : string) (device_pages : list (list value))
    (runs : list device_run) (rest : list response) (w : world) :
  served device_pages runs rest w ->
  exists sheets,
    fst (run group_id api_token w) = Some (Returns sheets) /\
    map name sheets
    = map (fun x => PyStr (substring 0 30 (dev_id x))) runs /\
    Forall (fun x =>
              dict_find "id" (dev_items x) = Some (PyStr (dev_id x)) /\
              String.length (substring 0 30 (dev_id x))
              = Nat.min 30 (String.length (dev_id x)) /\
              prefix (substring 0 30 (dev_id x)) (dev_id x) = true /\
              ((String.length (dev_id x) <= 30)%nat ->
               substring 0 30 (dev_id x) = dev_id x)) runs /\
    (files (snd (main xlsx_file group_id api_token w)) = files w \/
     exists part,
       files (snd (main xlsx_file group_id api_token w))
       = files w ++ [Writer xlsx_file part] /\
       starts_with sheets part) /\
    (accepted xlsx_file sheets ->
     files (snd (main xlsx_file group_id api_token w))
     = files w ++ [Writer xlsx_file sheets]).
Proof.
  intros Hs.
  destruct (main_served xlsx_file group_id api_token _ _ _ _ Hs)
    as (w' & Hrun & Hmain & _ & _ & _ & Hfiles).
  rewrite Hmain, Hrun. cbn [fst snd].
  destruct Hs as (_ & _ & Hruns & _).
  destruct (write_spec xlsx_file (map sheet_of runs) w')
    as (_ & _ & _ & _ & Hpart & Hall).
  rewrite Hfiles in Hpart, Hall.
  exists (map sheet_of runs).
  split; [reflexivity |]. split; [| split; [| split; [exact Hpart |]]].
  - rewrite map_map. reflexivity.
  - apply Forall_forall. intros x Hx.
    rewrite Forall_forall in Hruns. destruct (Hruns x Hx) as (Hid & _).
    split; [exact Hid |].
    split; [apply substring_length |].
    split; [apply substring_prefix | apply substring_short].
  - intros Hacc. apply Hall, write_accepted, Hacc.
Qed.

(** The two sample ids have 35 and 36 characters and share the first 30:
    both sheets are built with the same name. *)
Lemma sheet_names_truncated_witness :
  exists sheets,
    fst (@run stub_pendulum "group" "token" sample_world)
    = Some (Returns sheets) /\
    map name sheets
    = [PyStr "node-0123456789-0123456789-abc";
       PyStr "node-0123456789-0123456789-abc"].
Proof.
  destruct (sheet_names_truncated stub_pendulum stub_pandas
              "out.xlsx" "group" "token"
              _ _ _ _ sample_world_served) as (sheets & Hr & Hn & _).
  exists sheets. split; [exact Hr | exact Hn].
Defined.

Lemma exchanges_Forall (Q : request * option response -> Prop)
    endpoint fixed token offset pages :
  (forall o page, Q (exchange endpoint fixed token o page)) ->
  Forall Q (exchanges endpoint fixed token offset pages).
Proof.
  intros HQ. revert offset.
  induction pages as [| page pages IH]; intros offset; cbn [exchanges];
    constructor; auto.
Qed.

(** C9.  In such a run the requests sent are those of the device list,
    with the group identifier and the token of the command line, followed
    for each device in turn by the requests for its messages, which carry
    the [group_id], the [id] and the [api_token] found in the record of that
    device. *)
Theorem message_fetch_uses_device_record (P : Pendulum) (Q : Pandas)
    (xlsx_file group_id api_token : string) (device_pages : list (list value))
    (runs : list device_run) (rest : list response) (w : world) :
  served device_pages runs rest w ->
  http (snd (main xlsx_file group_id api_token w))
  = http w
    ++ exchanges devices_url [("group_id", PyStr group_id)] (PyStr api_token)
         0 device_pages
    ++ flat_map message_exchanges runs /\
  Forall (fun e =>
            url (fst e) = devices_url /\
            dict_find "group_id" (params (fst e)) = Some (PyStr group_id) /\
            headers (fst e)
            = [("Authorization", Format "Bearer {}" [PyStr api_token])])
    (exchanges devices_url [("group_id", PyStr group_id)] (PyStr api_token)
       0 device_pages) /\
  Forall (fun x =>
            message_exchanges x <> [] /\
            dict_find "api_token" (dev_items x) = Some (dev_token x) /\
            Forall (fun e =>
                      url (fst e) = messages_url /\
                      dict_find "group_id" (params (fst e))
                      = dict_find "group_id" (dev_items x) /\
                      dict_find "device_id" (params (fst e))
                      = dict_find "id" (dev_items x) /\
                      headers (fst e)
                      = [("Authorization", Format "Bearer {}" [dev_token x])])
              (message_exchanges x)) runs.
Proof.
  intros Hs.
  destruct (main_served xlsx_file group_id api_token _ _ _ _ Hs)
    as (w' & _ & Hmain & _ & Hhttp & _ & _).
  rewrite Hmain.
  destruct (write_spec xlsx_file (map sheet_of runs) w') as (_ & -> & _).
  destruct Hs as (_ & _ & Hruns & _).
  split; [exact Hhttp |]. split.
  - apply exchanges_Forall. intros o page. repeat split.
  - apply Forall_forall. intros x Hx.
    rewrite Forall_forall in Hruns.
    destruct (Hruns x Hx) as (Hid & _ & Hgroup & Htoken & Hpages & _).
    split; [| split; [exact Htoken |]].
    + unfold message_exchanges. destruct Hpages; cbn [exchanges]; discriminate.
    + apply exchanges_Forall. intros o page.
      rewrite Hid, Hgroup. repeat split.
Qed.

Lemma message_fetch_uses_device_record_witness :
  map (fun e => (url (fst e), headers (fst e)))
    (http (snd (@main stub_pendulum stub_pandas "out.xlsx" "group" "token" sample_world)))
  = [(devices_url, [("Authorization", Format "Bearer {}" [PyStr "token"])]);
     (messages_url,
      [("Authorization",
        Format "Bearer {}"
          [PyStr "token-of-node-0123456789-0123456789-abc-left"])]);
     (messages_url,
      [("Authorization",
        Format "Bearer {}"
          [PyStr "token-of-node-0123456789-0123456789-abc-right"])])].
Proof.
  rewrite (proj1 (message_fetch_uses_device_record stub_pendulum stub_pandas
                    "out.xlsx" "group" "token" _ _ _ _ sample_world_served)).
  reflexivity.
Defined.

(** * Further properties *)

(** ** A non-zero [int] converts to a non-zero [float] *)

Lemma digits2_pos_size p : digits2_pos p = Pos.size p.
Proof. induction p; cbn; congruence. Qed.

Lemma Zdigits2_lower m : 0 < m -> 2 ^ (Zdigits2 m - 1) <= m.
Proof.
  destruct m as [| p | p]; try lia. intros _. cbn [Zdigits2].
  rewrite digits2_pos_size.
  pose proof (Pos.size_le p) as H.
  assert (H' : 2 ^ Zpos (Pos.size p) <= 2 * Zpos p).
  { change (2 * Zpos p) with (Zpos p~0). rewrite <- Pos2Z.inj_pow. exact H. }
  replace (Zpos (Pos.size p)) with (Z.succ (Zpos (Pos.size p) - 1)) in H' by lia.
  rewrite Z.pow_succ_r in H' by lia. lia.
Qed.

Lemma shr_1_mantissa mrs :
  0 <= shr_m mrs -> shr_m (shr_1 mrs) = shr_m mrs / 2.
Proof.
  destruct mrs as [m r s]. cbn [shr_m shr_1]. intros Hm.
  destruct m as [| [p | p |] | p]; cbn [shr_m]; try lia; try reflexivity.
  - rewrite Pos2Z.inj_xI. apply Z.div_unique with (r := 1); lia.
  - rewrite Pos2Z.inj_xO. apply Z.div_unique with (r := 0); lia.
Qed.

Lemma iter_shr_1_mantissa p :
  forall mrs, 0 <= shr_m mrs ->
    shr_m (iter_pos shr_1 p mrs) = shr_m mrs / 2 ^ Zpos p.
Proof.
  induction p as [p IH | p IH |]; intros mrs Hm; cbn [iter_pos].
  - assert (H1 : 0 <= shr_m (shr_1 mrs)).
    { rewrite shr_1_mantissa by assumption. apply Z.div_pos; lia. }
    assert (H2 : 0 <= shr_m (iter_pos shr_1 p (shr_1 mrs))).
    { rewrite IH by assumption. apply Z.div_pos; lia. }
    rewrite IH, IH, shr_1_mantissa by assumption.
    rewrite !Z.div_div by lia. f_equal.
    change (Zpos p~1) with (2 * Zpos p + 1).
    replace (2 * Zpos p + 1) with (1 + Zpos p + Zpos p) by lia.
    rewrite !Z.pow_add_r by lia. lia.
  - assert (H2 : 0 <= shr_m (iter_pos shr_1 p mrs)).
    { rewrite IH by assumption. apply Z.div_pos; lia. }
    rewrite IH, IH by assumption.
    rewrite !Z.div_div by lia. f_equal.
    change (Zpos p~0) with (2 * Zpos p).
    replace (2 * Zpos p) with (Zpos p + Zpos p) by lia.
    rewrite !Z.pow_add_r by lia. lia.
  - rewrite shr_1_mantissa by assumption. reflexivity.
Qed.

Lemma shr_record_of_loc_mantissa m l : shr_m (shr_record_of_loc m l) = m.
Proof. destruct l as [| []]; reflexivity. Qed.

(** Shifting a mantissa into the format keeps it positive as long as the
    number is above the smallest exponent. *)
Lemma shr_fexp_positive m e l :
  0 < m -> emin prec emax <= e ->
  0 < shr_m (fst (shr_fexp prec emax m e l)) /\
  e <= snd (shr_fexp prec emax m e l).
Proof.
  intros Hm He. unfold shr_fexp, shr.
  pose proof (Zdigits2_lower m Hm) as Hd.
  assert (Hdig : 0 < Zdigits2 m).
  { destruct m; cbn; lia. }
  set (n := fexp prec emax (Zdigits2 m + e) - e).
  assert (Hn : n < Zdigits2 m).
  { unfold n, fexp. unfold emin, prec, emax in *. lia. }
  destruct n as [| p | p] eqn:En; cbn [fst snd];
    rewrite ?shr_record_of_loc_mantissa; try (split; lia).
  rewrite iter_shr_1_mantissa
    by (rewrite shr_record_of_loc_mantissa; lia).
  rewrite shr_record_of_loc_mantissa. split; [| lia].
  apply Z.div_str_pos. split; [lia |].
  apply Z.le_trans with (2 ^ (Zdigits2 m - 1)); [| exact Hd].
  apply Z.pow_le_mono_r; lia.
Qed.

Lemma round_nearest_even_ge m l : m <= round_nearest_even m l.
Proof.
  unfold round_nearest_even.
  destruct l as [| []]; try destruct (Z.even m); lia.
Qed.

Lemma binary_round_aux_nonzero sx mx ex lx :
  0 < mx -> emin prec emax <= ex ->
  float_is_zero (binary_round_aux prec emax sx mx ex lx) = false.
Proof.
  intros Hm He. unfold binary_round_aux.
  destruct (shr_fexp_positive mx ex lx Hm He) as [H1 H1'].
  destruct (shr_fexp prec emax mx ex lx) as [mrs' e']. cbn [fst snd] in *.
  pose proof (round_nearest_even_ge (shr_m mrs') (loc_of_shr_record mrs')) as Hr.
  destruct (shr_fexp_positive
              (round_nearest_even (shr_m mrs') (loc_of_shr_record mrs'))
              e' loc_Exact) as [H2 _]; [lia | lia |].
  destruct (shr_fexp prec emax _ e' loc_Exact) as [mrs'' e''].
  cbn [fst] in H2.
  destruct (shr_m mrs''); try lia.
  destruct (e'' <=? emax - prec); reflexivity.
Qed.

Lemma float_of_int_nonzero z f :
  z <> 0 -> float_of_int z = Returns f -> float_is_zero f = false.
Proof.
  intros Hz. unfold float_of_int, checked.
  destruct (float_is_inf _); [discriminate |].
  intros E. injection E as <-.
  assert (H : forall s m,
             float_is_zero (binary_round prec emax s m 0) = false).
  { intros s m. unfold binary_round, shl_align.
    set (e := fexp prec emax (Zpos (digits2_pos m) + 0)).
    assert (He : emin prec emax <= e) by (unfold e, fexp; lia).
    destruct (e - 0) as [| d | d] eqn:Ed;
      apply binary_round_aux_nonzero; try lia;
      unfold emin, prec, emax in *; lia. }
  destruct z as [| m | m]; [congruence | apply H | apply H].
Qed.

(** ** The extractor never divides by zero *)

Lemma zd_bind {A B} (r : result A) (k : A -> result B) :
  zero_division r = false ->
  (forall a, r = Returns a -> zero_division (k a) = false) ->
  zero_division (rbind r k) = false.
Proof. destruct r as [a | e]; cbn; auto. Qed.

Lemma zd_getitem obj key : zero_division (getitem obj key) = false.
Proof. destruct obj; cbn; try reflexivity. destruct (dict_find key items); reflexivity. Qed.

Lemma zd_get obj key default : zero_division (get obj key default) = false.
Proof. destruct obj; cbn; try reflexivity. destruct (dict_find key items); reflexivity. Qed.

Lemma zd_contains obj key : zero_division (contains obj key) = false.
Proof. destruct obj; reflexivity. Qed.

Lemma zd_as_number v : zero_division (as_number v) = false.
Proof. destruct v; reflexivity. Qed.

Lemma zd_checked f : zero_division (checked f) = false.
Proof. unfold checked. destruct (float_is_inf f); reflexivity. Qed.

Lemma zd_to_float n : zero_division (to_float n) = false.
Proof. destruct n; [apply zd_checked | reflexivity]. Qed.

Lemma zd_round v ndigits : zero_division (round v ndigits) = false.
Proof.
  unfold round. apply zd_bind; [apply zd_as_number | intros [z | f] _]; [reflexivity |].
  apply zd_bind; [| reflexivity].
  unfold float_round. destruct f; try reflexivity.
  destruct (_ =? 0); [reflexivity | apply zd_checked].
Qed.

Lemma zd_round_opt t ndigits : zero_division (round_opt t ndigits) = false.
Proof. destruct t; try apply zd_round. reflexivity. Qed.

Lemma zd_sub a b : zero_division (sub a b) = false.
Proof.
  unfold sub. apply zd_bind; [apply zd_as_number | intros x _].
  apply zd_bind; [apply zd_as_number | intros y _].
  destruct x, y; try reflexivity;
    (apply zd_bind; [apply zd_to_float | intros ? _]);
    (apply zd_bind; [apply zd_to_float | intros ? _]); reflexivity.
Qed.

Lemma zd_mul a b : zero_division (mul a b) = false.
Proof.
  unfold mul. apply zd_bind; [apply zd_as_number | intros x _].
  apply zd_bind; [apply zd_as_number | intros y _].
  destruct x, y; try reflexivity;
    (apply zd_bind; [apply zd_to_float | intros ? _]);
    (apply zd_bind; [apply zd_to_float | intros ? _]); reflexivity.
Qed.

(** A divisor that passed the truth test is not zero, as an [int] and as
    the [float] it is converted to. *)
Lemma truthy_divisor b y fy :
  truthy b = true -> as_number b = Returns y -> to_float y = Returns fy ->
  float_is_zero fy = false /\ (forall n, y = NInt n -> n <> 0).
Proof.
  intros Ht Hy Hf. destruct b; try discriminate; cbn in Hy, Ht.
  - destruct b; [| discriminate]. injection Hy as <-. split.
    + apply (float_of_int_nonzero 1); [lia | exact Hf].
    + intros n E. injection E as <-. lia.
  - injection Hy as <-. apply Bool.negb_true_iff, Z.eqb_neq in Ht. split.
    + apply (float_of_int_nonzero z); assumption.
    + intros n E. injection E as <-. exact Ht.
  - injection Hy as <-. cbn in Hf. injection Hf as <-. split.
    + apply Bool.negb_true_iff. exact Ht.
    + discriminate.
Qed.

Lemma zd_truediv a b : truthy b = true -> zero_division (truediv a b) = false.
Proof.
  intros Ht. unfold truediv.
  apply zd_bind; [apply zd_as_number | intros x _].
  apply zd_bind; [apply zd_as_number | intros y Hy].
  assert (Hfloat : forall x',
             zero_division
               (fx <- to_float x' ;; fy <- to_float y ;;
                if float_is_zero fy then Raises ZeroDivisionError
                else Returns (PyFloat (SFdiv prec emax fx fy)))%py = false).
  { intros x'. apply zd_bind; [apply zd_to_float | intros fx _].
    apply zd_bind; [apply zd_to_float | intros fy Hfy].
    destruct (truthy_divisor b y fy Ht Hy Hfy) as [-> _]. reflexivity. }
  destruct x as [m | fx], y as [n | fy]; try apply Hfloat.
  apply zd_bind; [| reflexivity].
  unfold int_truediv.
  assert (Hn : n <> 0).
  { destruct b; try discriminate; cbn in Hy, Ht.
    - destruct b; [| discriminate]. injection Hy as <-. lia.
    - injection Hy as <-. apply Bool.negb_true_iff, Z.eqb_neq in Ht. exact Ht. }
  apply Z.eqb_neq in Hn. rewrite Hn.
  destruct (m =? 0); [reflexivity | apply zd_checked].
Qed.

(** X1.  [extract_measurement] never raises [ZeroDivisionError], whatever
    the message, as long as [pendulum] does not: the division by [v2] is
    only reached when [v2] passed the truth test, and a number that passes
    it is not zero, also after its conversion to a [float]. *)
Theorem extract_measurement_never_divides_by_zero (P : Pendulum) (message : value) :
  (forall s, zero_division (local_datetime s) = false) ->
  zero_division (extract_measurement message) = false.
Proof.
  intros Hpendulum. unfold extract_measurement.
  apply zd_bind; [apply zd_getitem | intros data _].
  apply zd_bind; [apply zd_contains | intros has_battery _].
  destruct (negb has_battery); [reflexivity |].
  apply zd_bind; [apply zd_getitem | intros created_at _].
  apply zd_bind; [destruct created_at; try reflexivity; apply Hpendulum | intros d _].
  do 2 (apply zd_bind; [apply zd_getitem | intros ? _]).
  apply zd_bind; [apply zd_get | intros voltage1 _].
  do 2 (apply zd_bind; [apply zd_getitem | intros ? _]).
  apply zd_bind; [apply zd_get | intros voltage2 _].
  apply zd_bind; [apply zd_getitem | intros ? _].
  do 3 (apply zd_bind; [apply zd_get | intros ? _]).
  apply zd_bind; [apply zd_getitem | intros ? _].
  do 3 (apply zd_bind; [apply zd_get | intros ? _]).
  destruct (truthy voltage1 && truthy voltage2) eqn:Ht; [| reflexivity].
  apply Bool.andb_true_iff in Ht. destruct Ht as [_ Ht].
  apply zd_bind; [apply zd_getitem | intros ? _].
  do 2 (apply zd_bind; [apply zd_round_opt | intros ? _]).
  do 2 (apply zd_bind; [apply zd_round | intros ? _]).
  apply zd_bind; [| intros q _; apply zd_bind; [apply zd_round | reflexivity]].
  unfold load_resistance.
  apply zd_bind; [apply zd_sub | intros ? _].
  apply zd_bind; [apply zd_mul | intros ? _].
  apply zd_truediv. exact Ht.
Qed.

(** Voltages 3 and 0: no record, and no division either. *)
Lemma extract_measurement_never_divides_by_zero_witness :
  zero_division
    (@extract_measurement stub_pendulum
       (sample_message [("voltage1", PyInt 3); ("voltage2", PyInt 0)])) = false.
Proof.
  apply (extract_measurement_never_divides_by_zero stub_pendulum).
  intros s. cbn. destruct (String.eqb s _); reflexivity.
Defined.

(** ** What the extractor reads and what it returns *)

(** X2.  [extract_measurement] looks at three entries of the message only,
    [data], [created_at] and [label]: two messages that agree on these have
    the same outcome, record, [None] or exception alike. *)
Theorem extract_measurement_reads_three_keys (P : Pendulum)
    (items1 items2 : list (string * value)) :
  dict_find "data" items1 = dict_find "data" items2 ->
  dict_find "created_at" items1 = dict_find "created_at" items2 ->
  dict_find "label" items1 = dict_find "label" items2 ->
  extract_measurement (PyDict items1) = extract_measurement (PyDict items2).
Proof.
  intros Hdata Hdate Hlabel. unfold extract_measurement.
  cbn [getitem]. rewrite Hdata, Hdate, Hlabel. reflexivity.
Qed.

Lemma extract_measurement_reads_three_keys_witness :
  @extract_measurement stub_pendulum extra_key_message
  = @extract_measurement stub_pendulum
      (PyDict [("label", PyStr "bat-1");
               ("created_at", PyStr "2019-06-21T10:00:00+00:00");
               ("data", PyDict [("battery", PyDict [("voltage1", PyInt 3);
                                                    ("voltage2", PyInt 2)])])]).
Proof.
  apply (extract_measurement_reads_three_keys stub_pendulum); reflexivity.
Defined.

Lemma round_is_number v ndigits v' :
  round v ndigits = Returns v' ->
  is_number v' = true /\ (is_float v = true -> is_float v' = true).
Proof.
  unfold round. destruct v; try discriminate; cbn [as_number rbind].
  - intros E. injection E as <-. split; [reflexivity | discriminate].
  - intros E. injection E as <-. split; [reflexivity | discriminate].
  - destruct (float_round f ndigits); [| discriminate]. cbn [rbind].
    intros E. injection E as <-. split; reflexivity.
Qed.

Lemma round_opt_is_number_or_none t ndigits t' :
  round_opt t ndigits = Returns t' -> is_number_or_none t' = true.
Proof.
  destruct t; cbn [round_opt];
    try (intros E; apply round_is_number in E; destruct E as [E _];
         destruct t'; try discriminate; reflexivity).
  intros E. injection E as <-. reflexivity.
Qed.

Lemma truediv_is_float a b q : truediv a b = Returns q -> is_float q = true.
Proof.
  unfold truediv.
  destruct (as_number a) as [x |]; [| discriminate].
  destruct (as_number b) as [y |]; [| discriminate]. cbn [rbind].
  destruct x as [m | fx], y as [n | fy]; cbn [to_float rbind].
  - destruct (int_truediv m n); [| discriminate].
    intros E. injection E as <-. reflexivity.
  - destruct (float_of_int m); [| discriminate]. cbn [rbind].
    destruct (float_is_zero fy); [discriminate |].
    intros E. injection E as <-. reflexivity.
  - destruct (float_of_int n) as [fy |]; [| discriminate]. cbn [rbind].
    destruct (float_is_zero fy); [discriminate |].
    intros E. injection E as <-. reflexivity.
  - destruct (float_is_zero fy); [discriminate |].
    intros E. injection E as <-. reflexivity.
Qed.

(** X3.  A record that [extract_measurement] returns carries the label
    of the message as it is, the local date of its [created_at] string,
    temperatures that are numbers or [None], voltages that are numbers, and a
    load resistance that is a [float] even when both voltages are [int]s. *)
Theorem extract_measurement_record_shape (P : Pendulum) (message : value)
    (x : measurement) :
  extract_measurement message = Returns (Some x) ->
  getitem message "label" = Returns (label x) /\
  (exists s, getitem message "created_at" = Returns (PyStr s) /\
             local_datetime s = Returns (date x)) /\
  is_number_or_none (t1 x) = true /\
  is_number_or_none (t2 x) = true /\
  is_number (v1 x) = true /\
  is_number (v2 x) = true /\
  is_float (r x) = true.
Proof.
  unfold extract_measurement. intros H.
  repeat match type of H with
         | rbind ?c _ = Returns _ =>
             let E := fresh "E" in
             destruct c eqn:E; cbn [rbind] in H; [| discriminate H]
         | (if ?c then _ else _) = Returns _ =>
             destruct c; try discriminate H
         end.
  injection H as <-. cbn [label date t1 t2 v1 v2 r].
  split; [reflexivity |]. split.
  - match goal with
    | Hd : parse_date ?c = Returns _ |- _ =>
        destruct c; try discriminate Hd; cbn [parse_date] in Hd
    end.
    eexists. split; [reflexivity | assumption].
  - repeat match goal with
           | Hr : round_opt _ _ = Returns _ |- _ =>
               apply round_opt_is_number_or_none in Hr
           end.
    match goal with
    | Hq : load_resistance _ _ = Returns _ |- _ =>
        unfold load_resistance in Hq;
        repeat match type of Hq with
               | rbind ?c _ = Returns _ =>
                   destruct c; cbn [rbind] in Hq; [| discriminate Hq]
               end;
        apply truediv_is_float in Hq
    end.
    repeat match goal with
           | Hr : round _ 2 = Returns _ |- _ =>
               apply round_is_number in Hr; destruct Hr as [? ?]
           end.
    repeat split; auto.
Qed.

Lemma extract_measurement_record_shape_witness :
  exists x,
    @extract_measurement stub_pendulum
      (sample_message [("voltage1", PyInt 3); ("voltage2", PyInt 2)])
    = Returns (Some x) /\
    is_number (v1 x) = true /\ is_float (v1 x) = false /\ is_float (r x) = true.
Proof.
  eexists. split; [vm_compute; reflexivity |].
  pose proof (extract_measurement_record_shape stub_pendulum
                (sample_message [("voltage1", PyInt 3); ("voltage2", PyInt 2)])
                _ eq_refl) as (_ & _ & _ & _ & Hv1 & _ & Hr).
  split; [exact Hv1 | split; [reflexivity | exact Hr]].
Defined.

(** ** The loop over the messages of a device *)

Section ExtractAll.
Context {P : Pendulum}.

Lemma extract_all_first_error before outs m e after :
  Forall2 (fun m o => extract_measurement m = Returns o) before outs ->
  extract_measurement m = Raises e ->
  forall measurements,
    extract_all (before ++ m :: after) measurements = Raises e.
Proof.
  induction 1 as [| m0 o before outs Hm0 Hrest IH]; intros Hm measurements.
  - cbn [app extract_all]. rewrite Hm. reflexivity.
  - cbn [app extract_all]. rewrite Hm0. cbn [rbind].
    destruct o; apply IH; assumption.
Qed.
End ExtractAll.

Lemma present_length outs :
  (List.length (present outs) <= List.length outs)%nat.
Proof. induction outs as [| [x |] outs IH]; cbn [present List.length]; lia. Qed.

(** X4.  The loop [for m in messages] of [main]: when the extractor
    returns for every message, the measurements are the records among its
    results, in order, so never more than there are messages; when it raises
    for some message, the loop ends in the exception of the first such
    message, whatever comes after it. *)
Theorem extract_all_outcome (P : Pendulum) (measurements : list measurement) :
  (forall messages outs,
      Forall2 (fun m o => extract_measurement m = Returns o) messages outs ->
      extract_all messages measurements = Returns (measurements ++ present outs) /\
      (List.length (present outs) <= List.length messages)%nat)
  /\
  (forall before outs m e after,
      Forall2 (fun m o => extract_measurement m = Returns o) before outs ->
      extract_measurement m = Raises e ->
      extract_all (before ++ m :: after) measurements = Raises e).
Proof.
  split.
  - intros messages outs H. split; [apply extract_all_present; exact H |].
    rewrite (Forall2_length H). apply present_length.
  - intros before outs m e after H Hm. eapply extract_all_first_error; eassumption.
Qed.

Lemma extract_all_outcome_witness :
  @extract_all stub_pendulum
    [sample_message [("voltage1", PyInt 3); ("voltage2", PyInt 2)];
     PyDict [("data", PyDict [("battery", PyDict [])])];
     sample_message []] []
  = Raises KeyError.
Proof.
  eapply (proj2 (extract_all_outcome stub_pendulum [])
            [sample_message [("voltage1", PyInt 3); ("voltage2", PyInt 2)]]).
  - constructor; [vm_compute; reflexivity | constructor].
  - reflexivity.
Defined.

(** ** Requests and progress marks of a fetch *)

Lemma fetchAll_loop_requests fuel endpoint fixed token :
  forall found records offset w,
    exists new os,
      http (snd (fetchAll_loop fuel endpoint fixed token found records
                   offset 100 w)) = http w ++ new /\
      map fst new = map (page_request endpoint fixed token) os /\
      stdout (snd (fetchAll_loop fuel endpoint fixed token found records
                     offset 100 w))
      = stdout w ++ repeat (Lit ".", false) (List.length new) /\
      advancing 100 os /\
      match os with
      | [] => fuel = O
      | o :: _ => o = offset
      end /\
      (forall out,
          fst (fetchAll_loop fuel endpoint fixed token found records offset 100 w)
          = Some (Returns out) -> fst out = true).
Proof.
  induction fuel as [| fuel IH]; intros found records offset w.
  - exists [], []. cbn. rewrite !app_nil_r.
    repeat split; auto; try constructor. discriminate.
  - destruct w as [pend h so se fi]. rewrite fetchAll_loop_unfold. cbv zeta.
    fold (page_request endpoint fixed token offset).
    assert (Hleaf : forall (out : option (result (bool * list value))) pend' answer,
               (forall o, out = Some (Returns o) -> fst o = true) ->
               let run := (out, World pend'
                                  (h ++ [(page_request endpoint fixed token offset,
                                          answer)])
                                  (so ++ [(Lit ".", false)]) se fi) in
               exists new os,
                 http (snd run) = http (World pend h so se fi) ++ new /\
                 map fst new = map (page_request endpoint fixed token) os /\
                 stdout (snd run)
                 = stdout (World pend h so se fi)
                     ++ repeat (Lit ".", false) (List.length new) /\
                 advancing 100 os /\
                 match os with
                 | [] => S fuel = O
                 | o :: _ => o = offset
                 end /\
                 (forall o, fst run = Some (Returns o) -> fst o = true)).
    { intros out pend' answer Hout run.
      exists [(page_request endpoint fixed token offset, answer)], [offset].
      cbn. repeat split; auto; constructor. }
    destruct pend as [| r rest]; [apply Hleaf; discriminate |].
    destruct (negb (status_code r =? 200)); [apply Hleaf; discriminate |].
    destruct (loads_text r) as [page | e]; [| apply Hleaf; discriminate].
    destruct (len page) as [count | e] eqn:Hlen; [| apply Hleaf; discriminate].
    destruct (elements page) as [more | e]; [| apply Hleaf; discriminate].
    destruct ((count =? 0) || (count <? 100)) eqn:Hstop.
    { apply Hleaf. intros o E. injection E as <-. reflexivity. }
    apply Bool.orb_false_iff in Hstop. destruct Hstop as [_ Hfull].
    apply Z.ltb_ge in Hfull.
    match goal with
    | |- context [fetchAll_loop fuel ?e ?f ?t ?fo ?rs ?o ?l ?w1] =>
        destruct (IH fo rs o w1)
          as (new & os & Hhttp & Hreq & Hout & Hadv & Hhead & Hfound)
    end.
    cbn [http stdout] in Hhttp, Hout |- *.
    exists ((page_request endpoint fixed token offset, Some r) :: new),
           (offset :: os).
    rewrite Hhttp, Hout, <- !app_assoc. cbn [app map fst List.length repeat].
    rewrite Hreq.
    repeat split; auto.
    destruct os as [| o' os']; constructor; [lia | exact Hadv].
Qed.

Lemma fetchAll_requests endpoint fixed token w :
  exists new os,
    http (snd (fetchAll endpoint fixed token w)) = http w ++ new /\
    map fst new = map (page_request endpoint fixed token) (0 :: os) /\
    advancing 100 (0 :: os) /\
    stdout (snd (fetchAll endpoint fixed token w))
    = stdout w ++ repeat (Lit ".", false) (List.length new)
        ++ (if returned (fst (fetchAll endpoint fixed token w))
            then [(Lit "", true)] else []).
Proof.
  unfold fetchAll, bind.
  destruct (fetchAll_loop_requests (S (List.length (pending w))) endpoint fixed
              token false [] 0 w)
    as (new & os & Hhttp & Hreq & Hout & Hadv & Hhead & Hfound).
  destruct os as [| o os]; [discriminate Hhead |]. subst o.
  exists new, os.
  destruct (fetchAll_loop _ endpoint fixed token false [] 0 100 w)
    as [[[[found records] | e] |] w1]; cbn [fst snd] in *.
  - pose proof (Hfound _ eq_refl) as Hf. cbn [fst] in Hf. subst found.
    cbn. rewrite Hhttp, Hout, <- app_assoc. auto.
  - cbn. rewrite Hhttp, Hout, app_nil_r. auto.
  - cbn. rewrite Hhttp, Hout, app_nil_r. auto.
Qed.

(** X5.  Either fetcher, in any world: it sends at least one request,
    echoes one dot without newline per request sent and nothing else, and
    ends the line exactly when it returns; a fetch that raises or is still
    waiting leaves the dots unterminated. *)
Theorem fetch_progress_markers (device : DeviceFetcher.t)
    (message : MessageFetcher.t) (w : world) :
  (exists new,
      http (snd (DeviceFetcher.fetch device w)) = http w ++ new /\
      stdout (snd (DeviceFetcher.fetch device w))
      = stdout w ++ repeat (Lit ".", false) (List.length new)
          ++ (if returned (fst (DeviceFetcher.fetch device w))
              then [(Lit "", true)] else []) /\
      (1 <= List.length new)%nat)
  /\
  (exists new,
      http (snd (MessageFetcher.fetch message w)) = http w ++ new /\
      stdout (snd (MessageFetcher.fetch message w))
      = stdout w ++ repeat (Lit ".", false) (List.length new)
          ++ (if returned (fst (MessageFetcher.fetch message w))
              then [(Lit "", true)] else []) /\
      (1 <= List.length new)%nat).
Proof.
  split.
  - rewrite DeviceFetcher_fetch_generic.
    destruct (fetchAll_requests devices_url
                [("group_id", DeviceFetcher._group_id device)]
                (DeviceFetcher._api_token device) w)
      as (new & os & Hhttp & Hreq & _ & Hout).
    exists new. repeat split; auto.
    apply (f_equal (@List.length _)) in Hreq. rewrite !length_map in Hreq.
    rewrite Hreq. cbn. lia.
  - rewrite MessageFetcher_fetch_generic.
    destruct (fetchAll_requests messages_url
                [("group_id", MessageFetcher._group_id message);
                 ("device_id", MessageFetcher._device_id message)]
                (MessageFetcher._api_token message) w)
      as (new & os & Hhttp & Hreq & _ & Hout).
    exists new. repeat split; auto.
    apply (f_equal (@List.length _)) in Hreq. rewrite !length_map in Hreq.
    rewrite Hreq. cbn. lia.
Qed.

(** X6.  Either fetcher, in any world and whatever the answers: every
    request goes to the fetcher's endpoint with its fixed parameters, the
    bearer token and the limit 100; the first has offset 0, and each later
    offset is at least 100 above the one before. *)
Theorem fetch_offsets_advance (device : DeviceFetcher.t)
    (message : MessageFetcher.t) (w : world) :
  (exists new os,
      http (snd (DeviceFetcher.fetch device w)) = http w ++ new /\
      map fst new
      = map (page_request devices_url
               [("group_id", DeviceFetcher._group_id device)]
               (DeviceFetcher._api_token device)) (0 :: os) /\
      advancing 100 (0 :: os))
  /\
  (exists new os,
      http (snd (MessageFetcher.fetch message w)) = http w ++ new /\
      map fst new
      = map (page_request messages_url
               [("group_id", MessageFetcher._group_id message);
                ("device_id", MessageFetcher._device_id message)]
               (MessageFetcher._api_token message)) (0 :: os) /\
      advancing 100 (0 :: os)).
Proof.
  split.
  - rewrite DeviceFetcher_fetch_generic.
    destruct (fetchAll_requests devices_url
                [("group_id", DeviceFetcher._group_id device)]
                (DeviceFetcher._api_token device) w)
      as (new & os & Hhttp & Hreq & Hadv & _).
    exists new, os. auto.
  - rewrite MessageFetcher_fetch_generic.
    destruct (fetchAll_requests messages_url
                [("group_id", MessageFetcher._group_id message);
                 ("device_id", MessageFetcher._device_id message)]
                (MessageFetcher._api_token message) w)
      as (new & os & Hhttp & Hreq & Hadv & _).
    exists new, os. auto.
Qed.

(** Full pages only: the loop asks again. *)
Lemma fetchAll_loop_full_pages endpoint fixed token pages :
  Forall (fun page : list value => (100 <= List.length page)%nat) pages ->
  forall fuel found records offset h so se fi,
    (List.length pages < fuel)%nat ->
    fetchAll_loop fuel endpoint fixed token found records offset 100
      (World (map ok_page pages) h so se fi)
    = (None,
       World []
         (h ++ exchanges endpoint fixed token offset pages
            ++ [(page_request endpoint fixed token
                   (offset + Z.of_nat (List.length (List.concat pages))), None)])
         (so ++ repeat (Lit ".", false) (S (List.length pages))) se fi).
Proof.
  induction 1 as [| page pages Hfull Hrest IH];
    intros fuel found records offset h so se fi Hfuel;
    (destruct fuel as [| fuel]; [cbn in Hfuel; lia |]).
  - cbn [map]. rewrite fetchAll_loop_unfold. cbn.
    rewrite Z.add_0_r. reflexivity.
  - cbn [map]. rewrite fetchAll_loop_step. cbv zeta.
    rewrite full_page_continues by assumption.
    rewrite IH by (cbn in Hfuel; lia).
    cbn [List.concat exchanges List.length repeat].
    rewrite length_app, Nat2Z.inj_add, Z.add_assoc, <- !app_assoc.
    reflexivity.
Qed.

(** X7.  [DeviceFetcher.fetch] has no bound on the number of pages: after
    any run of answers that all hold at least 100 items it has not returned
    but sent one more request, at the offset of all the items received, and
    is waiting for its answer. *)
Theorem fetch_keeps_asking (device : DeviceFetcher.t) (w : world)
    (pages : list (list value)) :
  Forall (fun page : list value => (100 <= List.length page)%nat) pages ->
  pending w = map ok_page pages ->
  fst (DeviceFetcher.fetch device w) = None /\
  http (snd (DeviceFetcher.fetch device w))
  = http w
    ++ exchanges devices_url [("group_id", DeviceFetcher._group_id device)]
         (DeviceFetcher._api_token device) 0 pages
    ++ [(page_request devices_url [("group_id", DeviceFetcher._group_id device)]
           (DeviceFetcher._api_token device)
           (Z.of_nat (List.length (List.concat pages))), None)] /\
  files (snd (DeviceFetcher.fetch device w)) = files w.
Proof.
  intros Hfull Hpend. rewrite DeviceFetcher_fetch_generic.
  destruct w as [pend h so se fi]. cbn [pending] in Hpend. subst pend.
  unfold fetchAll, bind. cbn [pending].
  rewrite fetchAll_loop_full_pages by (try assumption; rewrite length_map; lia).
  cbn. auto.
Qed.

Lemma fetch_keeps_asking_witness :
  let w := fresh_world [ok_page (numbered 0 100); ok_page (numbered 100 120)] in
  let device := DeviceFetcher.__init__ (PyStr "group") (PyStr "token") in
  fst (DeviceFetcher.fetch device w) = None /\
  offsets (http (snd (DeviceFetcher.fetch device w)))
  = [Some (PyInt 0); Some (PyInt 100); Some (PyInt 220)].
Proof.
  intros w device.
  destruct (fetch_keeps_asking device w [numbered 0 100; numbered 100 120])
    as (Hout & Hhttp & _).
  - repeat constructor; cbn; lia.
  - reflexivity.
  - split; [exact Hout | rewrite Hhttp; reflexivity].
Defined.

(** ** Answers that are not a list *)

Lemma fetchAll_bad_body endpoint fixed token body rest e h so se fi :
  (page <- body ;; len page)%py = Raises e ->
  fetchAll endpoint fixed token (World (Response 200 body :: rest) h so se fi)
  = (Some (Raises e),
     World rest (h ++ [(page_request endpoint fixed token 0,
                        Some (Response 200 body))])
       (so ++ [(Lit ".", false)]) se fi).
Proof.
  intros Hbody. unfold fetchAll, bind. cbn [pending List.length].
  rewrite fetchAll_loop_unfold. cbn -[len].
  destruct body as [page | e']; cbn [rbind] in Hbody.
  - rewrite Hbody. reflexivity.
  - injection Hbody as ->. reflexivity.
Qed.

Lemma fetchAll_dict_body endpoint fixed token items rest h so se fi :
  (List.length items < 100)%nat ->
  fetchAll endpoint fixed token
    (World (Response 200 (Returns (PyDict items)) :: rest) h so se fi)
  = (Some (Returns (map (fun kv => PyStr (fst kv)) items)),
     World rest (h ++ [(page_request endpoint fixed token 0,
                        Some (Response 200 (Returns (PyDict items))))])
       (so ++ [(Lit ".", false); (Lit "", true)]) se fi).
Proof.
  intros Hshort. unfold fetchAll, bind. cbn [pending List.length].
  rewrite fetchAll_loop_unfold. cbn -[Z.of_nat Z.eqb Z.ltb].
  assert (Hstop : (Z.of_nat (List.length items) =? 0)
                  || (Z.of_nat (List.length items) <? 100) = true).
  { apply Bool.orb_true_iff. right. apply Z.ltb_lt. lia. }
  rewrite Hstop. cbn. rewrite <- app_assoc. reflexivity.
Qed.

(** X8.  Neither fetcher checks what a 200 answer holds.  When the body
    does not parse, or parses to something without a length, the fetch ends
    in that exception, not in [FetchException]; when it parses to an object
    of fewer than 100 entries, the fetch returns the keys of the object as
    its records.  Either way it stops after that one request. *)
Theorem fetch_unchecked_body (device : DeviceFetcher.t)
    (message : MessageFetcher.t) (w : world) (body : result value)
    (rest : list response) :
  pending w = Response 200 body :: rest ->
  (forall e,
      (page <- body ;; len page)%py = Raises e ->
      fst (DeviceFetcher.fetch device w) = Some (Raises e) /\
      fst (MessageFetcher.fetch message w) = Some (Raises e))
  /\
  (forall items,
      body = Returns (PyDict items) ->
      NoDup (map fst items) ->
      (List.length items < 100)%nat ->
      fst (DeviceFetcher.fetch device w) = Some (Returns (keys items)) /\
      fst (MessageFetcher.fetch message w) = Some (Returns (keys items)))
  /\
  ((exists e, (page <- body ;; len page)%py = Raises e) \/
   (exists items, body = Returns (PyDict items) /\ (List.length items < 100)%nat) ->
   List.length (http (snd (DeviceFetcher.fetch device w)))
   = S (List.length (http w)) /\
   pending (snd (DeviceFetcher.fetch device w)) = rest /\
   List.length (http (snd (MessageFetcher.fetch message w)))
   = S (List.length (http w)) /\
   pending (snd (MessageFetcher.fetch message w)) = rest).
Proof.
  intros Hpend. destruct w as [pend h so se fi]. cbn [pending] in Hpend.
  subst pend. rewrite DeviceFetcher_fetch_generic, MessageFetcher_fetch_generic.
  split; [| split].
  - intros e He. rewrite !(fetchAll_bad_body _ _ _ _ _ e) by assumption. auto.
  - intros items -> _ Hshort. rewrite !fetchAll_dict_body by assumption. auto.
  - intros [[e He] | [items [-> Hshort]]].
    + rewrite !(fetchAll_bad_body _ _ _ _ _ e) by assumption.
      cbn [snd http pending]. rewrite !length_app. cbn. repeat split; lia.
    + rewrite !fetchAll_dict_body by assumption.
      cbn [snd http pending]. rewrite !length_app. cbn. repeat split; lia.
Qed.

Lemma fetch_unchecked_body_witness :
  let w := fresh_world [Response 200 (Returns (PyDict [("error", PyStr "unauthorized")]))] in
  fst (DeviceFetcher.fetch (DeviceFetcher.__init__ (PyStr "g") (PyStr "t")) w)
  = Some (Returns [PyStr "error"]).
Proof.
  cbv zeta.
  refine (proj1 (proj1 (proj2 (fetch_unchecked_body
            (DeviceFetcher.__init__ (PyStr "g") (PyStr "t"))
            (MessageFetcher.__init__ PyNone PyNone PyNone)
            (fresh_world [Response 200 (Returns (PyDict [("error", PyStr "unauthorized")]))])
            _ [] eq_refl)) _ eq_refl _ _)).
  - repeat constructor. cbn. tauto.
  - cbn. lia.
Defined.

(** ** Runs that end in an exception *)

Section MainSteps.
Context {P : Pendulum} {Q : Pandas}.

(** [main] once the device list is in. *)
Lemma main_after_fetch xlsx_file group_id api_token w out w1 :
  DeviceFetcher.fetch (DeviceFetcher.__init__ (PyStr group_id) (PyStr api_token))
    (World (pending w) (http w)
       (stdout w ++ [(Format "Fetching data for group: {}..." [PyStr group_id], true)])
       (stderr w) (files w))
  = (out, w1) ->
  main xlsx_file group_id api_token w
  = match out with
    | Some (Returns devices) =>
        (sheets <- main_devices devices [] ;;
         click_echo (Lit "Generating XLSX file...") true false ;;
         write_xlsx xlsx_file sheets)%io w1
    | Some (Raises e) => (Some (Raises e), w1)
    | None => (None, w1)
    end.
Proof.
  intros Hfetch. unfold main. unfold bind at 1.
  cbn [click_echo]. unfold bind at 1. rewrite Hfetch.
  destruct out as [[devices | e] |]; reflexivity.
Qed.

(** The devices that go well, then whatever comes after them. *)
Lemma main_devices_app runs :
  Forall device_run_ok runs ->
  forall later sheets0 rest w,
    pending w = flat_map (fun x => map ok_page (msg_pages x)) runs ++ rest ->
    exists w1,
      main_devices (map (fun x => PyDict (dev_items x)) runs ++ later) sheets0 w
      = main_devices later (sheets0 ++ map sheet_of runs) w1 /\
      pending w1 = rest /\
      http w1 = http w ++ flat_map message_exchanges runs /\
      stderr w1 = stderr w /\
      files w1 = files w.
Proof.
  induction 1 as [| x runs Hx Hruns IH]; intros later sheets0 rest w Hpend.
  - exists w. cbn in *. rewrite !app_nil_r. auto.
  - destruct Hx as (Hid & Hname & Hgroup & Htoken & Hpages & Hext).
    destruct w as [pend h so se fi]. cbn [pending] in Hpend.
    cbn [flat_map] in Hpend. rewrite <- app_assoc in Hpend. subst pend.
    cbn [map app main_devices].
    rewrite (bind_lift_returns _ _ _ _ (getitem_found _ _ _ Hid)).
    rewrite (bind_lift_returns _ _ _ _ (getitem_found _ _ _ Hname)).
    unfold bind at 1. cbn [click_echo pending http stdout stderr files].
    rewrite (bind_lift_returns _ _ _ _ (getitem_found _ _ _ Hgroup)).
    rewrite (bind_lift_returns _ _ _ _ (getitem_found _ _ _ Hid)).
    rewrite (bind_lift_returns _ _ _ _ (getitem_found _ _ _ Htoken)).
    unfold bind at 1. rewrite MessageFetcher_fetch_generic.
    cbn [MessageFetcher._group_id MessageFetcher._device_id
         MessageFetcher._api_token].
    erewrite fetchAll_paging by (try eassumption; reflexivity).
    cbn [pending http stdout stderr files].
    rewrite (bind_lift_returns _ _ _ _ (extract_all_present _ _ Hext [])).
    rewrite (bind_lift_returns _ _ _ _ (getitem_found _ _ _ Hid)).
    rewrite (bind_lift_returns _ (PyStr (substring 0 30 (dev_id x))))
      by reflexivity.
    match goal with
    | |- context [main_devices _ ?s ?w1] =>
        destruct (IH later s rest w1 eq_refl) as (w' & Hrun & Hp' & Hh' & Hs' & Hf')
    end.
    cbn [http stderr files] in Hh', Hs', Hf'.
    exists w'. rewrite Hrun, Hh'. unfold message_exchanges at 2.
    cbn [app flat_map map]. rewrite <- !app_assoc.
    repeat split; auto.
Qed.

(** A device whose messages arrive but do not all pass the extractor. *)
Lemma main_devices_extract_error x e later sheets0 rest h so se fi :
  device_known x ->
  fails_at x e ->
  exists so',
    main_devices (PyDict (dev_items x) :: later) sheets0
      (World (map ok_page (msg_pages x) ++ rest) h so se fi)
    = (Some (Raises e),
       World rest (h ++ message_exchanges x) so' se fi).
Proof.
  intros (Hid & Hname & Hgroup & Htoken & Hpages)
         (before & outs & m & after & Hsplit & Hbefore & Hm).
  cbn [main_devices].
  rewrite (bind_lift_returns _ _ _ _ (getitem_found _ _ _ Hid)).
  rewrite (bind_lift_returns _ _ _ _ (getitem_found _ _ _ Hname)).
  unfold bind at 1. cbn [click_echo pending http stdout stderr files].
  rewrite (bind_lift_returns _ _ _ _ (getitem_found _ _ _ Hgroup)).
  rewrite (bind_lift_returns _ _ _ _ (getitem_found _ _ _ Hid)).
  rewrite (bind_lift_returns _ _ _ _ (getitem_found _ _ _ Htoken)).
  unfold bind at 1. rewrite MessageFetcher_fetch_generic.
  cbn [MessageFetcher._group_id MessageFetcher._device_id
       MessageFetcher._api_token].
  erewrite fetchAll_paging by (try eassumption; reflexivity).
  cbn [pending http stdout stderr files].
  rewrite Hsplit, (extract_all_first_error _ _ _ _ _ Hbefore Hm).
  eexists. reflexivity.
Qed.

(** A device record without one of the four keys [main] reads. *)
Lemma main_devices_missing_key items later sheets0 w :
  dict_find "id" items = None \/ dict_find "name" items = None \/
  dict_find "group_id" items = None \/ dict_find "api_token" items = None ->
  exists so',
    main_devices (PyDict items :: later) sheets0 w
    = (Some (Raises KeyError),
       World (pending w) (http w) so' (stderr w) (files w)).
Proof.
  intros Hmissing. destruct w as [pend h so se fi]. cbn [main_devices].
  unfold bind, lift. cbn [getitem click_echo pending http stdout stderr files].
  destruct (dict_find "id" items) as [id |]; [| eexists; reflexivity].
  destruct (dict_find "name" items) as [nm |]; [| eexists; reflexivity].
  destruct (dict_find "group_id" items) as [g |]; [| eexists; reflexivity].
  destruct (dict_find "api_token" items) as [t |]; [| eexists; reflexivity].
  destruct Hmissing as [H | [H | [H | H]]]; discriminate H.
Qed.
End MainSteps.

Section MainFailures.
Context {P : Pendulum} {Q : Pandas}.

Lemma main_listed xlsx_file group_id api_token device_pages rest w :
  paging device_pages ->
  pending w = map ok_page device_pages ++ rest ->
  exists so',
    main xlsx_file group_id api_token w
    = (sheets <- main_devices (List.concat device_pages) [] ;;
       click_echo (Lit "Generating XLSX file...") true false ;;
       write_xlsx xlsx_file sheets)%io
        (World rest
           (http w ++ exchanges devices_url [("group_id", PyStr group_id)]
                        (PyStr api_token) 0 device_pages)
           so' (stderr w) (files w)).
Proof.
  intros Hpages Hpend. eexists.
  erewrite main_after_fetch.
  2:{ rewrite DeviceFetcher_fetch_generic.
      cbn [DeviceFetcher._group_id DeviceFetcher._api_token].
      apply fetchAll_paging; [eassumption | cbn [pending]; eassumption]. }
  cbn [pending http stdout stderr files]. reflexivity.
Qed.

Lemma main_devices_failure_aborts xlsx_file devices e w w' :
  main_devices devices [] w = (Some (Raises e), w') ->
  (sheets <- main_devices devices [] ;;
   click_echo (Lit "Generating XLSX file...") true false ;;
   write_xlsx xlsx_file sheets)%io w
  = (Some (Raises e), w').
Proof. intros H. unfold bind at 1. rewrite H. reflexivity. Qed.

Lemma script_uncaught xlsx_file group_id api_token w e w' :
  main xlsx_file group_id api_token w = (Some (Raises e), w') ->
  uncaught e ->
  script xlsx_file group_id api_token w
  = (Some 1,
     World (pending w') (http w') (stdout w')
       (stderr w' ++ [(Traceback e, true)]) (files w')).
Proof.
  intros Hmain [H1 H2]. unfold script, click_main. rewrite Hmain.
  destruct e; try congruence; reflexivity.
Qed.
End MainFailures.

(** X9.  When the extractor raises on a message of some device, [main]
    ends in that exception after the messages of the device were fetched:
    no workbook is saved, the sheets of the devices before it are lost, and
    the messages of the devices after it are never asked for.  Unless the
    exception is one the script handles, the script prints the traceback
    and ends with status 1. *)
Theorem main_extractor_error_aborts (P : Pendulum) (Q : Pandas)
    (xlsx_file group_id api_token : string) (w : world)
    (device_pages : list (list value)) (runs : list device_run)
    (bad : device_run) (later : list value) (rest : list response) (e : exn) :
  paging device_pages ->
  List.concat device_pages
  = map (fun x => PyDict (dev_items x)) runs ++ PyDict (dev_items bad) :: later ->
  Forall device_run_ok runs ->
  device_known bad ->
  fails_at bad e ->
  pending w = map ok_page device_pages
              ++ flat_map (fun x => map ok_page (msg_pages x)) runs
              ++ map ok_page (msg_pages bad) ++ rest ->
  let out := main xlsx_file group_id api_token w in
  fst out = Some (Raises e) /\
  files (snd out) = files w /\
  stderr (snd out) = stderr w /\
  pending (snd out) = rest /\
  http (snd out)
  = http w
    ++ exchanges devices_url [("group_id", PyStr group_id)] (PyStr api_token) 0
         device_pages
    ++ flat_map message_exchanges runs ++ message_exchanges bad /\
  (uncaught e ->
   fst (script xlsx_file group_id api_token w) = Some 1 /\
   stderr (snd (script xlsx_file group_id api_token w))
   = stderr w ++ [(Traceback e, true)] /\
   files (snd (script xlsx_file group_id api_token w)) = files w).
Proof.
  intros Hpages Hdevices Hruns Hknown Hfails Hpend out.
  destruct (main_listed xlsx_file group_id api_token _ _ _ Hpages Hpend)
    as (so1 & Hmain).
  rewrite Hdevices in Hmain.
  match type of Hmain with
  | _ = _ ?w1 =>
      destruct (main_devices_app runs Hruns (PyDict (dev_items bad) :: later) []
                  (map ok_page (msg_pages bad) ++ rest) w1 eq_refl)
        as (w2 & Hrun & Hp2 & Hh2 & Hs2 & Hf2)
  end.
  destruct w2 as [pend2 h2 so2 se2 fi2].
  cbn [pending http stdout stderr files] in Hp2, Hh2, Hs2, Hf2.
  subst pend2 se2 fi2.
  destruct (main_devices_extract_error bad e later ([] ++ map sheet_of runs) rest
              h2 so2 (stderr w) (files w) Hknown Hfails) as (so3 & Hbad).
  rewrite Hbad in Hrun.
  rewrite (main_devices_failure_aborts _ _ _ _ _ Hrun) in Hmain.
  subst out. rewrite Hmain. cbn [fst snd pending http stderr files].
  rewrite Hh2, <- !app_assoc.
  repeat (split; [reflexivity |]).
  intros Hun. rewrite (script_uncaught _ _ _ _ _ _ Hmain Hun).
  cbn. auto.
Qed.

Lemma main_extractor_error_aborts_witness :
  let w := fresh_world
             ([ok_page [PyDict (dev_items sample_run_a);
                        PyDict (dev_items killed_device);
                        PyDict (dev_items sample_run_b)]]
              ++ map ok_page (msg_pages sample_run_a)
              ++ map ok_page (msg_pages killed_device)
              ++ map ok_page (msg_pages sample_run_b)) in
  fst (@main stub_pendulum stub_pandas "out.xlsx" "group" "token" w) = Some (Raises KeyError) /\
  files (snd (@main stub_pendulum stub_pandas "out.xlsx" "group" "token" w)) = [] /\
  pending (snd (@main stub_pendulum stub_pandas "out.xlsx" "group" "token" w))
  = map ok_page (msg_pages sample_run_b).
Proof.
  cbv zeta.
  destruct (main_extractor_error_aborts stub_pendulum stub_pandas "out.xlsx" "group" "token"
              (fresh_world
                 ([ok_page [PyDict (dev_items sample_run_a);
                            PyDict (dev_items killed_device);
                            PyDict (dev_items sample_run_b)]]
                  ++ map ok_page (msg_pages sample_run_a)
                  ++ map ok_page (msg_pages killed_device)
                  ++ map ok_page (msg_pages sample_run_b)))
              [[PyDict (dev_items sample_run_a);
                PyDict (dev_items killed_device);
                PyDict (dev_items sample_run_b)]]
              [sample_run_a] killed_device [PyDict (dev_items sample_run_b)]
              (map ok_page (msg_pages sample_run_b)) KeyError)
    as (Hout & Hfiles & _ & Hpend & _).
  - apply paging_last. cbn. lia.
  - reflexivity.
  - constructor; [| constructor].
    repeat (split; [reflexivity |]). split.
    + apply paging_last. cbn. lia.
    + cbn. repeat constructor.
  - repeat (split; [reflexivity |]). apply paging_last. cbn. lia.
  - exists [sample_message [("voltage1", PyFloat (decimal 31 10));
                            ("voltage2", PyFloat (decimal 29 10))]].
    eexists [_]. eexists. eexists. split; [reflexivity |]. split.
    + constructor; [vm_compute; reflexivity | constructor].
    + vm_compute. reflexivity.
  - reflexivity.
  - auto.
Defined.

(** X10.  A listed device whose record lacks [id], [name], [group_id] or
    [api_token] ends [main] in [KeyError] before any request for its
    messages is sent: the log holds the exchanges of the devices before it
    and nothing more, no workbook is saved, and the script prints the
    traceback and ends with status 1. *)
Theorem main_device_missing_key (P : Pendulum) (Q : Pandas)
    (xlsx_file group_id api_token : string) (w : world)
    (device_pages : list (list value)) (runs : list device_run)
    (items : list (string * value)) (later : list value) (rest : list response) :
  paging device_pages ->
  List.concat device_pages
  = map (fun x => PyDict (dev_items x)) runs ++ PyDict items :: later ->
  Forall device_run_ok runs ->
  dict_find "id" items = None \/ dict_find "name" items = None \/
  dict_find "group_id" items = None \/ dict_find "api_token" items = None ->
  pending w = map ok_page device_pages
              ++ flat_map (fun x => map ok_page (msg_pages x)) runs ++ rest ->
  let out := main xlsx_file group_id api_token w in
  fst out = Some (Raises KeyError) /\
  files (snd out) = files w /\
  pending (snd out) = rest /\
  http (snd out)
  = http w
    ++ exchanges devices_url [("group_id", PyStr group_id)] (PyStr api_token) 0
         device_pages
    ++ flat_map message_exchanges runs /\
  fst (script xlsx_file group_id api_token w) = Some 1 /\
  stderr (snd (script xlsx_file group_id api_token w))
  = stderr w ++ [(Traceback KeyError, true)].
Proof.
  intros Hpages Hdevices Hruns Hmissing Hpend out.
  destruct (main_listed xlsx_file group_id api_token _ _ _ Hpages Hpend)
    as (so1 & Hmain).
  rewrite Hdevices in Hmain.
  match type of Hmain with
  | _ = _ ?w1 =>
      destruct (main_devices_app runs Hruns (PyDict items :: later) []
                  rest w1 eq_refl)
        as (w2 & Hrun & Hp2 & Hh2 & Hs2 & Hf2)
  end.
  destruct (main_devices_missing_key items later ([] ++ map sheet_of runs) w2
              Hmissing) as (so3 & Hbad).
  rewrite Hbad in Hrun.
  rewrite (main_devices_failure_aborts _ _ _ _ _ Hrun) in Hmain.
  assert (Hun : uncaught KeyError) by (split; discriminate).
  rewrite (script_uncaught _ _ _ _ _ _ Hmain Hun).
  subst out. rewrite Hmain. cbn [fst snd pending http stderr files] in *.
  rewrite Hp2, Hh2, Hs2, Hf2, <- app_assoc. repeat split; reflexivity.
Qed.

Lemma main_device_missing_key_witness :
  let w := fresh_world [ok_page [PyDict [("id", PyStr "dev-1"); ("name", PyStr "core")]];
                        ok_page []] in
  fst (@main stub_pendulum stub_pandas "out.xlsx" "group" "token" w) = Some (Raises KeyError) /\
  pending (snd (@main stub_pendulum stub_pandas "out.xlsx" "group" "token" w)) = [ok_page []].
Proof.
  cbv zeta.
  destruct (main_device_missing_key stub_pendulum stub_pandas "out.xlsx" "group" "token"
              (fresh_world [ok_page [PyDict [("id", PyStr "dev-1"); ("name", PyStr "core")]];
                            ok_page []])
              [[PyDict [("id", PyStr "dev-1"); ("name", PyStr "core")]]]
              [] [("id", PyStr "dev-1"); ("name", PyStr "core")] [] [ok_page []])
    as (Hout & _ & Hpend & _).
  - apply paging_last. cbn. lia.
  - reflexivity.
  - constructor.
  - right. right. left. reflexivity.
  - reflexivity.
  - auto.
Defined.

(** X11.  When the device listing is answered with status 200 and a
    non-empty JSON object of fewer than 100 entries (an error document, say),
    [main] takes the keys for devices and ends in [TypeError] on the first
    one, after that single request; the script prints the traceback, not the
    fixed message, and ends with status 1. *)
Theorem main_object_answer (P : Pendulum) (Q : Pandas)
    (xlsx_file group_id api_token : string) (w : world)
    (items : list (string * value)) (rest : list response) :
  pending w = Response 200 (Returns (PyDict items)) :: rest ->
  NoDup (map fst items) ->
  items <> [] ->
  (List.length items < 100)%nat ->
  let out := main xlsx_file group_id api_token w in
  fst out = Some (Raises TypeError) /\
  files (snd out) = files w /\
  pending (snd out) = rest /\
  List.length (http (snd out)) = S (List.length (http w)) /\
  fst (script xlsx_file group_id api_token w) = Some 1 /\
  stderr (snd (script xlsx_file group_id api_token w))
  = stderr w ++ [(Traceback TypeError, true)].
Proof.
  intros Hpend _ Hsome Hshort out.
  destruct w as [pend h so se fi]. cbn [pending] in Hpend. subst pend.
  assert (Hmain : exists so',
             main xlsx_file group_id api_token
               (World (Response 200 (Returns (PyDict items)) :: rest) h so se fi)
             = (Some (Raises TypeError),
                World rest
                  (h ++ [(page_request devices_url [("group_id", PyStr group_id)]
                            (PyStr api_token) 0,
                          Some (Response 200 (Returns (PyDict items))))])
                  so' se fi)).
  { eexists. erewrite main_after_fetch.
    2:{ rewrite DeviceFetcher_fetch_generic.
        cbn [DeviceFetcher._group_id DeviceFetcher._api_token
             pending http stdout stderr files].
        apply fetchAll_dict_body. assumption. }
    destruct items as [| [k v] items]; [congruence |].
    cbn. reflexivity. }
  destruct Hmain as (so' & Hmain).
  assert (Hun : uncaught TypeError) by (split; discriminate).
  rewrite (script_uncaught _ _ _ _ _ _ Hmain Hun).
  subst out. rewrite Hmain. cbn [fst snd pending http stderr files].
  rewrite length_app. cbn. repeat split; try reflexivity. lia.
Qed.

Lemma main_object_answer_witness :
  let w := fresh_world [Response 200 (Returns (PyDict [("error", PyStr "unauthorized")]))] in
  fst (@script stub_pendulum stub_pandas "out.xlsx" "group" "token" w) = Some 1 /\
  stderr (snd (@script stub_pendulum stub_pandas "out.xlsx" "group" "token" w))
  = [(Traceback TypeError, true)].
Proof.
  cbv zeta.
  destruct (main_object_answer stub_pendulum stub_pandas "out.xlsx" "group" "token"
              (fresh_world [Response 200 (Returns (PyDict [("error", PyStr "unauthorized")]))])
              [("error", PyStr "unauthorized")] [] eq_refl)
    as (_ & _ & _ & _ & Hexit & Herr).
  - repeat constructor. cbn. tauto.
  - discriminate.
  - cbn. lia.
  - auto.
Defined.

Section Outcomes.
Context {P : Pendulum} {Q : Pandas}.

End Outcomes.

